(** * Network state snapshot engine: a shallow embedding

    The development follows the Go sources of the smartnode repository:

    - [watchtower.epochAt]                       (epoch of a wall-clock time),
    - [state.NetworkStateManager]                (manager.go),
    - [collectors.OdaoCollector]                 (demand-collector.go).

    Go's [uint64] values are integers of [Z] together with the wrap-around
    of every arithmetic operation; a run-time panic (integer division by
    zero) is an explicit outcome; remote clients are oracles that answer
    the n-th call of each kind, and every remote call and log line is
    recorded in a trace. *)

From Stdlib Require Import ZArith List String Ascii Bool Lia.
From Stdlib Require Import DecimalString.
Import ListNotations.
Local Open Scope Z_scope.

(** ** Go machine integers *)

Module Go.

Definition two64 : Z := 2 ^ 64.
Definition two63 : Z := 2 ^ 63.

(** Membership in [uint64] and [int64]. *)
Definition is_uint64 (z : Z) : Prop := 0 <= z < two64.
Definition is_int64 (z : Z) : Prop := - two63 <= z < two63.

(** Truncation of a mathematical integer to [uint64]. *)
Definition wrap64 (z : Z) : Z := z mod two64.

(** Truncation of a mathematical integer to [int64] (two's complement). *)
Definition wrap_i64 (z : Z) : Z := (z + two63) mod two64 - two63.

Definition add64 (a b : Z) : Z := wrap64 (a + b).
Definition sub64 (a b : Z) : Z := wrap64 (a - b).
Definition mul64 (a b : Z) : Z := wrap64 (a * b).

(** [a / b] on [uint64]: a zero divisor is a run-time panic. *)
Definition div64 (a b : Z) : option Z :=
  if b =? 0 then None else Some (a / b).

(** [int64(x)] for [x : uint64]. *)
Definition int64_of_uint64 (x : Z) : Z := wrap_i64 x.

(** [fmt.Sprint(x)] and the verb [%d] for [x : uint64]. *)
Definition Sprint (x : Z) : string :=
  NilZero.string_of_uint (N.to_uint (Z.to_N x)).

(** [float64(x)] for [x : uint64]: round to 53 significant bits, ties to
    even.  The result of the conversion is always an integer, so the
    float is represented by that integer. *)
Definition float64_of_uint64 (x : Z) : Z :=
  let n := Z.log2 x in
  if n <? 53 then x
  else
    let sh := n - 52 in
    let q := Z.shiftr x sh in
    let r := Z.land x (Z.ones sh) in
    let half := Z.shiftl 1 (sh - 1) in
    let q' := if (half <? r) || ((r =? half) && Z.odd q) then q + 1 else q in
    Z.shiftl q' sh.

(** An [error] value: one produced by a collaborator, or
    [fmt.Errorf(prefix + "%w", inner)]. *)
Inductive error : Type :=
| ClientError (msg : string)
| Errorf_w (prefix : string) (inner : error).

(** [err.Error()]. *)
Fixpoint Error (e : error) : string :=
  match e with
  | ClientError msg => msg
  | Errorf_w prefix inner => (prefix ++ Error inner)%string
  end.

(** [errors.Unwrap(err)]. *)
Definition Unwrap (e : error) : option error :=
  match e with
  | ClientError _ => None
  | Errorf_w _ inner => Some inner
  end.

(** A Go return [(value, error)]: [Err e] stands for the zero value (or
    nil) returned together with the non-nil error [e]. *)
Inductive result (A : Type) : Type :=
| Ok (a : A)
| Err (e : error).
Arguments Ok {A} a.
Arguments Err {A} e.

Definition is_Err {A : Type} (r : result A) : bool :=
  match r with Ok _ => false | Err _ => true end.

End Go.

(** ** Effects: a trace of remote calls and output *)

Module Eff.

Section Monad.
Variable E : Type.

(** A computation reads the history of events and appends to it. *)
Definition M (A : Type) : Type := list E -> A * list E.

Definition ret {A : Type} (a : A) : M A := fun w => (a, w).

Definition bind {A B : Type} (c : M A) (k : A -> M B) : M B :=
  fun w => let (a, w') := c w in k a w'.

(** Record one event. *)
Definition emit (e : E) : M unit := fun w => (tt, w ++ [e]).

(** How many events of a kind the history holds. *)
Definition calls (p : E -> bool) : M nat :=
  fun w => (List.length (filter p w), w).

End Monad.

Arguments ret {E A} a.
Arguments bind {E A B} c k.
Arguments emit {E} e.
Arguments calls {E} p.

End Eff.

Notation "x <- c ;; k" := (Eff.bind c (fun x => k))
  (at level 61, c at next level, right associativity).
Notation "c ;;; k" := (Eff.bind c (fun _ => k))
  (at level 61, right associativity).

(** ** Go's package time, as far as manager.go uses it *)

Module time.

Definition Second : Z := 1000000000.
Definition minDuration : Z := - Go.two63.
Definition maxDuration : Z := Go.two63 - 1.

(** Seconds from January 1, year 1 to the Unix epoch. *)
Definition unixToInternal : Z :=
  (1969 * 365 + 1969 / 4 - 1969 / 100 + 1969 / 400) * 86400.

(** A [Time] without monotonic clock reading: seconds since year 1
    ([int64]) and nanoseconds within the second. *)
Record Time : Type := mkTime { ext : Z; nsec : Z }.

(** [time.Unix(sec, nsec)]. *)
Definition Unix (sec nsec : Z) : Time :=
  let '(sec, nsec) :=
    if (nsec <? 0) || (Second <=? nsec) then
      let n := Z.quot nsec Second in
      let sec := Go.wrap_i64 (sec + n) in
      let nsec := nsec - n * Second in
      if nsec <? 0 then (Go.wrap_i64 (sec - 1), nsec + Second) else (sec, nsec)
    else (sec, nsec) in
  mkTime (Go.wrap_i64 (sec + unixToInternal)) nsec.

(** [t.addSec(d)]: saturating. *)
Definition addSec (t : Time) (d : Z) : Time :=
  let sum := Go.wrap_i64 (ext t + d) in
  if Bool.eqb (ext t <? sum) (0 <? d) then mkTime sum (nsec t)
  else if 0 <? d then mkTime (Go.two63 - 1) (nsec t)
  else mkTime (- (Go.two63 - 1)) (nsec t).

(** [t.Add(d)]. *)
Definition Add (t : Time) (d : Z) : Time :=
  let dsec := Z.quot d Second in
  let ns := nsec t + Z.rem d Second in
  let '(dsec, ns) :=
    if Second <=? ns then (Go.wrap_i64 (dsec + 1), ns - Second)
    else if ns <? 0 then (Go.wrap_i64 (dsec - 1), ns + Second)
    else (dsec, ns) in
  addSec (mkTime (ext t) ns) dsec.

(** [t.Equal(u)] and [t.Before(u)]. *)
Definition Equal (t u : Time) : bool :=
  (ext t =? ext u) && (nsec t =? nsec u).

Definition Before (t u : Time) : bool :=
  (ext t <? ext u) || ((ext t =? ext u) && (nsec t <? nsec u)).

(** [t.Sub(u)]: the difference as a [Duration] (nanoseconds, [int64]),
    saturated at the bounds of [Duration]. *)
Definition Sub (t u : Time) : Z :=
  let d := Go.wrap_i64 (Go.wrap_i64 (Go.wrap_i64 (ext t - ext u) * Second)
                        + (nsec t - nsec u)) in
  if Equal (Add u d) t then d
  else if Before t u then minDuration
  else maxDuration.

(** [uint64(d.Seconds())].  [Seconds] is
    [float64(d / Second) + float64(d % Second) / 1e9]; converting that
    float to [uint64] drops the fraction.  For the durations [Sub] yields
    on whole-second times (multiples of [Second], or a saturation bound)
    the integer part is exactly [d / Second].  Go leaves the conversion of
    a float below zero to the implementation: [neg] is what the platform
    answers. *)
Definition uint64_of_Seconds (neg : Z -> Z) (d : Z) : Z :=
  let sec := Z.quot d Second in
  if sec <? 0 then neg sec else sec.

(** Two implementations of the out-of-range conversion: two's complement
    (amd64) and saturation at zero (arm64). *)
Definition neg_wraps (sec : Z) : Z := Go.wrap64 sec.
Definition neg_saturates (sec : Z) : Z := 0.

End time.

(** ** beacon.Eth2Config *)

(** Modelled from the spec: the declaration of [beacon.Eth2Config] is not
    among the sources; these are the fields the sources read, all
    [uint64]. *)
Record Eth2Config : Type := mkEth2Config {
  GenesisEpoch    : Z;
  GenesisTime     : Z;
  SecondsPerSlot  : Z;
  SlotsPerEpoch   : Z;
  SecondsPerEpoch : Z
}.

(** Every field is a [uint64]. *)
Definition Eth2Config_typed (c : Eth2Config) : Prop :=
  Go.is_uint64 (GenesisEpoch c) /\ Go.is_uint64 (GenesisTime c) /\
  Go.is_uint64 (SecondsPerSlot c) /\ Go.is_uint64 (SlotsPerEpoch c) /\
  Go.is_uint64 (SecondsPerEpoch c).

(** ** watchtower.epochAt *)

Module Watchtower.

(** [config.GenesisEpoch + (time - config.GenesisTime) / config.SecondsPerEpoch]
    on [uint64]; [None] is the division-by-zero panic. *)
Definition epochAt (config : Eth2Config) (time : Z) : option Z :=
  match Go.div64 (Go.sub64 time (GenesisTime config)) (SecondsPerEpoch config) with
  | Some q => Some (Go.add64 (GenesisEpoch config) q)
  | None => None
  end.

End Watchtower.

(** ** shared/services/state: manager.go *)

Module State.

Import Go.

(** Modelled from the spec: the declarations of [beacon.BeaconHead],
    [beacon.BeaconBlock], [types.Header], [state.NetworkState] and
    [config.RocketPoolConfig] are not among the sources; the records keep
    the fields the sources and the spec name. *)
Record BeaconHead : Type := mkBeaconHead {
  Epoch          : Z;
  FinalizedEpoch : Z;
  JustifiedEpoch : Z
}.

Record BeaconBlock : Type := mkBeaconBlock {
  Slot                 : Z;
  HasExecutionPayload  : bool;
  ExecutionBlockNumber : Z
}.

(** [beacon.BeaconBlock{}]. *)
Definition BeaconBlock_zero : BeaconBlock := mkBeaconBlock 0 false 0.

Record Header : Type := mkHeader {
  Number : Z;
  Time   : Z
}.

Record NetworkDetails : Type := mkNetworkDetails {
  PricesBlock                 : Z;
  LatestReportablePricesBlock : Z
}.

Record NetworkState : Type := mkNetworkState {
  ElBlockNumber    : Z;
  BeaconSlotNumber : Z;
  StateBeaconConfig : Eth2Config;
  Details          : NetworkDetails
}.

Record RocketPoolConfig : Type := mkRocketPoolConfig {
  SmartnodeNetwork : string;
  SmartnodeChainID : Z
}.

(** A [*log.ColorLogger]; [None] is the nil pointer. *)
Record ColorLogger : Type := mkColorLogger { Color : Z }.

(** What the manager does to the outside world. *)
Inductive Event : Type :=
| CallGetEth2Config
| CallGetBeaconHead
| CallGetBeaconBlock (blockId : string)
| CallHeaderByNumber
| CallCreateNetworkState (slotNumber : Z) (beaconConfig : Eth2Config)
| LogPrintlnf (format : string) (v : list Z).

Definition is_GetEth2Config (e : Event) : bool :=
  match e with CallGetEth2Config => true | _ => false end.
Definition is_GetBeaconHead (e : Event) : bool :=
  match e with CallGetBeaconHead => true | _ => false end.
Definition is_GetBeaconBlock (e : Event) : bool :=
  match e with CallGetBeaconBlock _ => true | _ => false end.
Definition is_HeaderByNumber (e : Event) : bool :=
  match e with CallHeaderByNumber => true | _ => false end.
Definition is_CreateNetworkState (e : Event) : bool :=
  match e with CallCreateNetworkState _ _ => true | _ => false end.
Definition is_Log (e : Event) : bool :=
  match e with LogPrintlnf _ _ => true | _ => false end.

(** The collaborators: the beacon client [bc], the execution client [ec]
    and the snapshot builder [CreateNetworkState] (its source is not among
    the files).  Each answers according to how many calls of the same
    kind came before.  [float_neg] is the platform's conversion of a
    negative float to [uint64]. *)
Record Clients : Type := mkClients {
  bc_GetEth2Config      : nat -> result Eth2Config;
  bc_GetBeaconHead      : nat -> result BeaconHead;
  bc_GetBeaconBlock     : nat -> string -> result (BeaconBlock * bool);
  ec_HeaderByNumber     : nat -> result Header;
  pkg_CreateNetworkState : nat -> option ColorLogger -> Z -> Eth2Config -> result NetworkState;
  float_neg             : Z -> Z
}.

Definition M : Type -> Type := Eff.M Event.

(** The remote calls, each recorded in the trace. *)
Definition GetEth2Config (c : Clients) : M (result Eth2Config) :=
  n <- Eff.calls is_GetEth2Config ;;
  Eff.emit CallGetEth2Config ;;;
  Eff.ret (bc_GetEth2Config c n).

Definition GetBeaconHead (c : Clients) : M (result BeaconHead) :=
  n <- Eff.calls is_GetBeaconHead ;;
  Eff.emit CallGetBeaconHead ;;;
  Eff.ret (bc_GetBeaconHead c n).

Definition GetBeaconBlock (c : Clients) (blockId : string)
  : M (result (BeaconBlock * bool)) :=
  n <- Eff.calls is_GetBeaconBlock ;;
  Eff.emit (CallGetBeaconBlock blockId) ;;;
  Eff.ret (bc_GetBeaconBlock c n blockId).

Definition HeaderByNumber (c : Clients) : M (result Header) :=
  n <- Eff.calls is_HeaderByNumber ;;
  Eff.emit CallHeaderByNumber ;;;
  Eff.ret (ec_HeaderByNumber c n).

Definition CreateNetworkState (c : Clients) (log : option ColorLogger)
  (slotNumber : Z) (beaconConfig : Eth2Config) : M (result NetworkState) :=
  n <- Eff.calls is_CreateNetworkState ;;
  Eff.emit (CallCreateNetworkState slotNumber beaconConfig) ;;;
  Eff.ret (pkg_CreateNetworkState c n log slotNumber beaconConfig).

(** The struct, without the client handles (they are [Clients]) and the
    mutex. *)
Record NetworkStateManager : Type := mkNetworkStateManager {
  log          : option ColorLogger;
  Config       : RocketPoolConfig;
  Network      : string;
  ChainID      : Z;
  BeaconConfig : Eth2Config
}.

(** [NewNetworkStateManager].  The configuration parameter read by the
    type assertion holds a [Network], so the assertion succeeds. *)
Definition NewNetworkStateManager (c : Clients) (cfg : RocketPoolConfig)
  (log : option ColorLogger) : M (result NetworkStateManager) :=
  r <- GetEth2Config c ;;
  match r with
  | Err err => Eff.ret (Err err)
  | Ok beaconConfig =>
      Eff.ret (Ok (mkNetworkStateManager log cfg (SmartnodeNetwork cfg)
                     (SmartnodeChainID cfg) beaconConfig))
  end.

(** [getState]: the mutex is taken and released after the snapshot is
    built and guards nothing else. *)
Definition getState (c : Clients) (m : NetworkStateManager) (slotNumber : Z)
  : M (result NetworkState) :=
  r <- CreateNetworkState c (log m) slotNumber (BeaconConfig m) ;;
  match r with
  | Err err => Eff.ret (Err err)
  | Ok state => Eff.ret (Ok state)
  end.

(** [GetStateForSlot]. *)
Definition GetStateForSlot (c : Clients) (m : NetworkStateManager)
  (slotNumber : Z) : M (result NetworkState) :=
  getState c m slotNumber.

(** The slot [GetHeadState] computes from the header's timestamp; [None]
    is the division-by-zero panic. *)
Definition headTargetSlot (neg : Z -> Z) (beaconConfig : Eth2Config)
  (headerTime : Z) : option Z :=
  let latestBlockTime := time.Unix (int64_of_uint64 headerTime) 0 in
  let genesisTime := time.Unix (int64_of_uint64 (GenesisTime beaconConfig)) 0 in
  let secondsSinceGenesis :=
    time.uint64_of_Seconds neg (time.Sub latestBlockTime genesisTime) in
  div64 secondsSinceGenesis (SecondsPerSlot beaconConfig).

(** [GetHeadState]; [None] is a panic. *)
Definition GetHeadState (c : Clients) (m : NetworkStateManager)
  : M (option (result NetworkState)) :=
  r <- HeaderByNumber c ;;
  match r with
  | Err err =>
      Eff.ret (Some (Err (Errorf_w "error getting latest EL block: " err)))
  | Ok latestBlockHeader =>
      match headTargetSlot (float_neg c) (BeaconConfig m) (Time latestBlockHeader) with
      | None => Eff.ret None
      | Some targetSlot =>
          r <- getState c m targetSlot ;;
          Eff.ret (Some r)
      end
  end.

(** [logLine]: prints only if the logger is specified.  The event keeps
    the format and the arguments as they are passed on. *)
Definition logLine (m : NetworkStateManager) (format : string) (v : list Z)
  : M unit :=
  match log m with
  | Some _ => Eff.emit (LogPrintlnf format v)
  | None => Eff.ret tt
  end.

Definition skipFormat : string :=
  "Slot %d was missing, trying the previous one...".

(** The first slot [GetLatestFinalizedBeaconBlock] probes. *)
Definition finalizedTargetSlot (head : BeaconHead) (beaconConfig : Eth2Config) : Z :=
  add64 (mul64 (FinalizedEpoch head) (SlotsPerEpoch beaconConfig))
        (sub64 (SlotsPerEpoch beaconConfig) 1).

(** One turn of the [for] loop: [inl] is the next value of [targetSlot],
    [inr] is what the function returns. *)
Definition loopBody (c : Clients) (m : NetworkStateManager) (targetSlot : Z)
  : M (Z + result BeaconBlock) :=
  r <- GetBeaconBlock c (Sprint targetSlot) ;;
  match r with
  | Err err =>
      Eff.ret (inr (Err (Errorf_w
        ("error getting Beacon block " ++ Sprint targetSlot ++ ": ") err)))
  | Ok (block, exists_) =>
      if negb exists_ then
        logLine m skipFormat [targetSlot] ;;;
        Eff.ret (inl (sub64 targetSlot 1))
      else Eff.ret (inr (Ok block))
  end.

(** The [for] loop, run for at most [fuel] turns; [None] when the loop has
    not returned by then. *)
Fixpoint loop (fuel : nat) (c : Clients) (m : NetworkStateManager)
  (targetSlot : Z) : M (option (result BeaconBlock)) :=
  match fuel with
  | O => Eff.ret None
  | S fuel' =>
      x <- loopBody c m targetSlot ;;
      match x with
      | inl targetSlot' => loop fuel' c m targetSlot'
      | inr r => Eff.ret (Some r)
      end
  end.

(** [GetLatestFinalizedBeaconBlock], its loop bounded by [fuel]. *)
Definition GetLatestFinalizedBeaconBlock (fuel : nat) (c : Clients)
  (m : NetworkStateManager) : M (option (result BeaconBlock)) :=
  r <- GetBeaconHead c ;;
  match r with
  | Err err =>
      Eff.ret (Some (Err (Errorf_w "error getting Beacon chain head: " err)))
  | Ok head =>
      loop fuel c m (finalizedTargetSlot head (BeaconConfig m))
  end.

End State.

(** ** rocketpool/node/collectors: the ODAO collector *)

Module Collectors.

Import Go.

(** The four gauges of [OdaoCollector]. *)
Inductive Desc : Type :=
| currentEth1Block
| pricesBlock
| effectiveRplStakeBlock
| latestReportableBlock.

(** What a collection does to the outside world.  [Send d v] is
    [channel <- prometheus.MustNewConstMetric(d, prometheus.GaugeValue, v)];
    the values sent here are integer-valued floats. *)
Inductive Event : Type :=
| CallGetState
| CallBlockNumber
| CallGetPricesBlock
| CallGetLatestReportablePricesBlock
| Send (desc : Desc) (value : Z)
| Printf (line : string).

Definition is_query (e : Event) : bool :=
  match e with
  | CallBlockNumber | CallGetPricesBlock | CallGetLatestReportablePricesBlock => true
  | _ => false
  end.

Definition is_Send (e : Event) : bool :=
  match e with Send _ _ => true | _ => false end.

(** The three functions handed to [errgroup.Group.Go]. *)
Inductive Goroutine : Type :=
| GoBlockNumber
| GoPricesBlock
| GoLatestReportable.

(** The orders in which the three can complete. *)
Definition schedules : list (list Goroutine) :=
  [ [GoBlockNumber; GoPricesBlock; GoLatestReportable];
    [GoBlockNumber; GoLatestReportable; GoPricesBlock];
    [GoPricesBlock; GoBlockNumber; GoLatestReportable];
    [GoPricesBlock; GoLatestReportable; GoBlockNumber];
    [GoLatestReportable; GoBlockNumber; GoPricesBlock];
    [GoLatestReportable; GoPricesBlock; GoBlockNumber] ].

(** Modelled from the spec: [StateLocker] is not among the sources; its
    [GetState] returns the current snapshot or nil ([None]) when none is
    held.  The other fields are the answers of the execution client and of
    the network contracts (the latest reportable block is a [*big.Int]),
    and the order in which the goroutines of the legacy path complete. *)
Record Env : Type := mkEnv {
  stateLocker_GetState                   : option State.NetworkState;
  rp_BlockNumber                         : result Z;
  network_GetPricesBlock                 : result Z;
  network_GetLatestReportablePricesBlock : result Z;
  schedule                               : list Goroutine
}.

Definition M : Type -> Type := Eff.M Event.

(** [x.Uint64()] for [x : *big.Int]: the low 64 bits of the magnitude. *)
Definition big_Uint64 (x : Z) : Z := wrap64 (Z.abs x).

(** The local float variables the goroutines write. *)
Record Floats : Type := mkFloats {
  blockNumberFloat            : Z;
  pricesBlockFloat            : Z;
  effectiveRplStakeBlockFloat : Z;
  latestReportableBlockFloat  : Z
}.

(** All four start as [float64(-1)]. *)
Definition initFloats : Floats := mkFloats (-1) (-1) (-1) (-1).

(** The body of each goroutine: the new values of the variables and the
    error it returns, if any. *)
Definition runGoroutine (env : Env) (g : Goroutine) (v : Floats)
  : M (Floats * option error) :=
  match g with
  | GoBlockNumber =>
      Eff.emit CallBlockNumber ;;;
      match rp_BlockNumber env with
      | Err err =>
          Eff.ret (v, Some (Errorf_w "Error getting latest ETH1 block: " err))
      | Ok blockNumber =>
          Eff.ret (mkFloats (float64_of_uint64 blockNumber) (pricesBlockFloat v)
                     (effectiveRplStakeBlockFloat v) (latestReportableBlockFloat v),
                   None)
      end
  | GoPricesBlock =>
      Eff.emit CallGetPricesBlock ;;;
      match network_GetPricesBlock env with
      | Err err =>
          Eff.ret (v, Some (Errorf_w "Error getting ETH1 prices block: " err))
      | Ok pricesBlock_ =>
          Eff.ret (mkFloats (blockNumberFloat v) (float64_of_uint64 pricesBlock_)
                     (float64_of_uint64 pricesBlock_) (latestReportableBlockFloat v),
                   None)
      end
  | GoLatestReportable =>
      Eff.emit CallGetLatestReportablePricesBlock ;;;
      match network_GetLatestReportablePricesBlock env with
      | Err err =>
          Eff.ret (v, Some (Errorf_w "Error getting ETH1 latest reportable block: " err))
      | Ok latestReportableBlock_ =>
          Eff.ret (mkFloats (blockNumberFloat v) (pricesBlockFloat v)
                     (effectiveRplStakeBlockFloat v)
                     (float64_of_uint64 (big_Uint64 latestReportableBlock_)),
                   None)
      end
  end.

(** [wg.Go] three times and [wg.Wait]: every goroutine runs, and the
    group keeps the first error returned. *)
Fixpoint runGroup (env : Env) (sched : list Goroutine) (v : Floats)
  (first : option error) : M (Floats * option error) :=
  match sched with
  | [] => Eff.ret (v, first)
  | g :: sched' =>
      x <- runGoroutine env g v ;;
      let '(v', err) := x in
      runGroup env sched' v'
        (match first with Some _ => first | None => err end)
  end.

Definition logPrefix : string := "ODAO Collector".

Definition newline : string := String (ascii_of_nat 10) EmptyString.

(** [logError]. *)
Definition logError (err : error) : M unit :=
  Eff.emit (Printf ("[" ++ logPrefix ++ "] " ++ Error err ++ newline)).

(** The four sends that end both paths. *)
Definition sendAll (v : Floats) : M unit :=
  Eff.emit (Send currentEth1Block (blockNumberFloat v)) ;;;
  Eff.emit (Send pricesBlock (pricesBlockFloat v)) ;;;
  Eff.emit (Send effectiveRplStakeBlock (effectiveRplStakeBlockFloat v)) ;;;
  Eff.emit (Send latestReportableBlock (latestReportableBlockFloat v)).

(** [collectImpl_Legacy]. *)
Definition collectImpl_Legacy (env : Env) : M unit :=
  x <- runGroup env (schedule env) initFloats None ;;
  let '(v, err) := x in
  match err with
  | Some e => logError e
  | None => sendAll v
  end.

(** [collectImpl_Atlas]. *)
Definition collectImpl_Atlas (state : State.NetworkState) : M unit :=
  let blockNumberFloat := float64_of_uint64 (State.ElBlockNumber state) in
  let pricesBlockFloat :=
    float64_of_uint64 (State.PricesBlock (State.Details state)) in
  let effectiveRplStakeBlockFloat := pricesBlockFloat in
  let latestReportableBlockFloat :=
    float64_of_uint64 (State.LatestReportablePricesBlock (State.Details state)) in
  sendAll (mkFloats blockNumberFloat pricesBlockFloat
             effectiveRplStakeBlockFloat latestReportableBlockFloat).

(** [stateLocker.GetState()]. *)
Definition GetState (env : Env) : M (option State.NetworkState) :=
  Eff.emit CallGetState ;;;
  Eff.ret (stateLocker_GetState env).

(** [Collect]. *)
Definition Collect (env : Env) : M unit :=
  latestState <- GetState env ;;
  match latestState with
  | None => collectImpl_Legacy env
  | Some state => collectImpl_Atlas state
  end.

End Collectors.

(** ** Vocabulary of the statements *)

Module Scan.

Import Go State.

(** How many calls of each kind a trace holds. *)
Definition probes (w : list Event) : nat :=
  List.length (filter is_GetBeaconBlock w).
Definition heads (w : list Event) : nat :=
  List.length (filter is_GetBeaconHead w).
Definition headers (w : list Event) : nat :=
  List.length (filter is_HeaderByNumber w).
Definition builds (w : list Event) : nat :=
  List.length (filter is_CreateNetworkState w).
Definition configFetches (w : list Event) : nat :=
  List.length (filter is_GetEth2Config w).
Definition logLines (w : list Event) : nat :=
  List.length (filter is_Log w).

(** The slot of the [i]-th probe of a scan that starts at [target]: [i]
    decrements of a [uint64]. *)
Definition scanSlot (target : Z) (i : nat) : Z :=
  wrap64 (target - Z.of_nat i).

(** The answer the beacon client gives to the [i]-th probe of a scan that
    starts at [target] after [n0] earlier probes. *)
Definition scanResponse (c : Clients) (n0 : nat) (target : Z) (i : nat)
  : result (BeaconBlock * bool) :=
  bc_GetBeaconBlock c (n0 + i) (Sprint (scanSlot target i)).

(** The probed slot does not exist: the call succeeded with
    [exists = false]. *)
Definition is_missing (r : result (BeaconBlock * bool)) : bool :=
  match r with
  | Ok (_, false) => true
  | _ => false
  end.

(** What one skipped slot leaves in the trace: the probe, and the
    diagnostic if the manager has a logger. *)
Definition skipEvents (m : NetworkStateManager) (slot : Z) : list Event :=
  CallGetBeaconBlock (Sprint slot) ::
  match log m with
  | Some _ => [LogPrintlnf skipFormat [slot]]
  | None => []
  end.

(** The trace of [k] consecutive skips from [target] downwards: the
    slots [target], [target - 1], ..., [target - (k - 1)] in turn. *)
Definition skipTrace (m : NetworkStateManager) (target : Z) (k : nat)
  : list Event :=
  flat_map (fun i => skipEvents m (scanSlot target i)) (seq 0 k).

(** The error [GetLatestFinalizedBeaconBlock] returns for a failed probe
    of [slot]. *)
Definition probeError (slot : Z) (err : error) : error :=
  Errorf_w ("error getting Beacon block " ++ Sprint slot ++ ": ") err.

(** What the loop returns on an answer that is not a missing slot. *)
Definition answer (slot : Z) (r : result (BeaconBlock * bool))
  : result BeaconBlock :=
  match r with
  | Err err => Err (probeError slot err)
  | Ok (block, _) => Ok block
  end.

(** The same clients with another source of configurations. *)
Definition with_GetEth2Config (c : Clients)
  (g : nat -> result Eth2Config) : Clients :=
  mkClients g (bc_GetBeaconHead c) (bc_GetBeaconBlock c)
    (ec_HeaderByNumber c) (pkg_CreateNetworkState c) (float_neg c).

(** The timestamps [t] for which [GetHeadState]'s detour through
    [time.Time] and [time.Duration] is exact: [t] is a time the package
    represents, and the time since genesis [g] fits a [Duration]. *)
Definition fitsDuration (g t : Z) : Prop :=
  t < two63 - time.unixToInternal /\ t - g <= time.maxDuration / time.Second.

End Scan.

Module Gauges.

Import Go Collectors.

(** The direct query each goroutine of the legacy path makes. *)
Definition queryOf (g : Goroutine) : Event :=
  match g with
  | GoBlockNumber => CallBlockNumber
  | GoPricesBlock => CallGetPricesBlock
  | GoLatestReportable => CallGetLatestReportablePricesBlock
  end.

(** The direct queries and the gauges of a trace, in order. *)
Definition queries (w : list Event) : list Event := filter is_query w.
Definition sends (w : list Event) : list Event := filter is_Send w.

(** The four sends for given values of the local variables. *)
Definition gauges (v : Floats) : list Event :=
  [ Send currentEth1Block (blockNumberFloat v);
    Send pricesBlock (pricesBlockFloat v);
    Send effectiveRplStakeBlock (effectiveRplStakeBlockFloat v);
    Send latestReportableBlock (latestReportableBlockFloat v) ].

(** The values [collectImpl_Atlas] reads off a snapshot. *)
Definition ofState (state : State.NetworkState) : Floats :=
  mkFloats (float64_of_uint64 (State.ElBlockNumber state))
    (float64_of_uint64 (State.PricesBlock (State.Details state)))
    (float64_of_uint64 (State.PricesBlock (State.Details state)))
    (float64_of_uint64 (State.LatestReportablePricesBlock (State.Details state))).

End Gauges.

(** ** Concrete scenarios *)

Module Scenarios.

Import Go State.

(** Genesis at 1000, 12-second slots, 32 slots per epoch. *)
Definition config : Eth2Config := mkEth2Config 0 1000 12 32 384.

(** One slot per epoch, so that epoch 0 ends at slot 0. *)
Definition configUnit : Eth2Config := mkEth2Config 0 1000 12 1 12.

Definition rpConfig : RocketPoolConfig := mkRocketPoolConfig "mainnet" 1.

Definition logger : option ColorLogger := Some (mkColorLogger 0).

Definition manager : NetworkStateManager :=
  mkNetworkStateManager logger rpConfig "mainnet" 1 config.

Definition managerUnit : NetworkStateManager :=
  mkNetworkStateManager logger rpConfig "mainnet" 1 configUnit.

(** A snapshot builder that succeeds at every slot. *)
Definition builder (n : nat) (log : option ColorLogger) (slotNumber : Z)
  (beaconConfig : Eth2Config) : result NetworkState :=
  Ok (mkNetworkState 0 slotNumber beaconConfig (mkNetworkDetails 0 0)).

(** Clients that answer every call of a kind the same way. *)
Definition clients (cfg : result Eth2Config) (head : result BeaconHead)
  (blocks : string -> result (BeaconBlock * bool)) (header : result Header)
  (neg : Z -> Z) : Clients :=
  mkClients (fun _ => cfg) (fun _ => head) (fun _ => blocks)
    (fun _ => header) builder neg.

Definition block125 : BeaconBlock := mkBeaconBlock 125 true 4242.

(** Only slot 125 holds a block. *)
Definition only125 (blockId : string) : result (BeaconBlock * bool) :=
  if String.eqb blockId "125" then Ok (block125, true)
  else Ok (BeaconBlock_zero, false).

(** No slot holds a block. *)
Definition noBlock (blockId : string) : result (BeaconBlock * bool) :=
  Ok (BeaconBlock_zero, false).

(** Slot 127 is empty and the probe of slot 126 fails. *)
Definition timeout : error := ClientError "context deadline exceeded".

Definition fails126 (blockId : string) : result (BeaconBlock * bool) :=
  if String.eqb blockId "126" then Err timeout
  else Ok (BeaconBlock_zero, false).

(** Finalized epoch 3; the execution head is at time 1600. *)
Definition clientsB : Clients :=
  clients (Ok config) (Ok (mkBeaconHead 5 3 4)) only125
    (Ok (mkHeader 77 1600)) time.neg_wraps.

Definition clientsFail126 : Clients :=
  clients (Ok config) (Ok (mkBeaconHead 5 3 4)) fails126
    (Ok (mkHeader 77 1600)) time.neg_wraps.

(** Finalized epoch 0 and an empty chain. *)
Definition clientsEmpty : Clients :=
  clients (Ok configUnit) (Ok (mkBeaconHead 0 0 0)) noBlock
    (Ok (mkHeader 77 1600)) time.neg_wraps.

(** The execution head is one second before genesis; the two platforms. *)
Definition clientsEarly (neg : Z -> Z) : Clients :=
  clients (Ok config) (Ok (mkBeaconHead 5 3 4)) only125
    (Ok (mkHeader 1 999)) neg.

(** The execution client cannot be reached. *)
Definition refused : error := ClientError "connection refused".

Definition clientsDown : Clients :=
  clients (Err refused) (Ok (mkBeaconHead 5 3 4)) only125
    (Err refused) time.neg_wraps.

(** A cached snapshot, and the answers of the direct queries. *)
Definition snapshot : NetworkState :=
  mkNetworkState 17000000 6000000 config (mkNetworkDetails 16999000 16999900).

Definition envCached : Collectors.Env :=
  Collectors.mkEnv (Some snapshot) (Err refused) (Err refused) (Err refused)
    [Collectors.GoBlockNumber; Collectors.GoPricesBlock;
     Collectors.GoLatestReportable].

Definition envLegacy : Collectors.Env :=
  Collectors.mkEnv None (Ok 17000005) (Ok 16999000) (Ok 16999900)
    [Collectors.GoLatestReportable; Collectors.GoBlockNumber;
     Collectors.GoPricesBlock].

End Scenarios.

(** ** rocketpool/node/collectors: the demand collector and Describe *)

Module Demand.

Import Go.

(** The four gauges of [DemandCollector]. *)
Inductive Desc : Type :=
| depositPoolBalance
| depositPoolExcess
| totalMinipoolCapacity
| effectiveMinipoolCapacity.

(** [minipool.QueueCapacity]: two [*big.Int] amounts of wei. *)
Record QueueCapacity : Type := mkQueueCapacity {
  Total     : Z;
  Effective : Z
}.

(** The answers of the deposit pool and of the minipool queue. *)
Record Env : Type := mkEnv {
  deposit_GetBalance        : result Z;
  deposit_GetExcessBalance  : result Z;
  minipool_GetQueueCapacity : result QueueCapacity
}.

Section WithFloat.

(** [float64], the constant [float64(-1)] and [eth.WeiToEth] (a function
    of another library) are parameters. *)
Variable float64 : Type.
Variable minusOne : float64.
Variable WeiToEth : Z -> float64.

(** What a collection does to the outside world. *)
Inductive Event : Type :=
| CallGetBalance
| CallGetExcessBalance
| CallGetQueueCapacity
| LogPrintf (format : string) (err : error)
| Send (desc : Desc) (value : float64).

Definition is_Send (e : Event) : bool :=
  match e with Send _ _ => true | _ => false end.
Definition is_LogPrintf (e : Event) : bool :=
  match e with LogPrintf _ _ => true | _ => false end.

(** [DemandCollector.Collect]. *)
Definition Collect (env : Env) : Eff.M Event unit :=
  Eff.emit CallGetBalance ;;;
  balanceFloat <-
    match deposit_GetBalance env with
    | Err err =>
        Eff.emit (LogPrintf "Error getting deposit pool balance: %s" err) ;;;
        Eff.ret minusOne
    | Ok depositPoolBalance_ => Eff.ret (WeiToEth depositPoolBalance_)
    end ;;
  Eff.emit (Send depositPoolBalance balanceFloat) ;;;
  Eff.emit CallGetExcessBalance ;;;
  excessFloat <-
    match deposit_GetExcessBalance env with
    | Err err =>
        Eff.emit (LogPrintf "Error getting deposit pool excess: %s" err) ;;;
        Eff.ret minusOne
    | Ok depositPoolExcess_ => Eff.ret (WeiToEth depositPoolExcess_)
    end ;;
  Eff.emit (Send depositPoolExcess excessFloat) ;;;
  Eff.emit CallGetQueueCapacity ;;;
  floats <-
    match minipool_GetQueueCapacity env with
    | Err err =>
        Eff.emit (LogPrintf "Error getting minipool queue capacity: %s" err) ;;;
        Eff.ret (minusOne, minusOne)
    | Ok minipoolQueueCapacity =>
        Eff.ret (WeiToEth (Total minipoolQueueCapacity),
                 WeiToEth (Effective minipoolQueueCapacity))
    end ;;
  Eff.emit (Send totalMinipoolCapacity (fst floats)) ;;;
  Eff.emit (Send effectiveMinipoolCapacity (snd floats)).

End WithFloat.

Arguments CallGetBalance {float64}.
Arguments CallGetExcessBalance {float64}.
Arguments CallGetQueueCapacity {float64}.
Arguments LogPrintf {float64} format err.
Arguments Send {float64} desc value.
Arguments is_Send {float64} e.
Arguments is_LogPrintf {float64} e.
Arguments Collect {float64} minusOne WeiToEth env.

(** [DemandCollector.Describe]: the descriptors put on the channel. *)
Definition Describe : Eff.M Desc unit :=
  Eff.emit depositPoolBalance ;;;
  Eff.emit depositPoolExcess ;;;
  Eff.emit totalMinipoolCapacity ;;;
  Eff.emit effectiveMinipoolCapacity.

End Demand.

Module Odao.

(** [OdaoCollector.Describe]: the descriptors put on the channel. *)
Definition Describe : Eff.M Collectors.Desc unit :=
  Eff.emit Collectors.currentEth1Block ;;;
  Eff.emit Collectors.pricesBlock ;;;
  Eff.emit Collectors.effectiveRplStakeBlock ;;;
  Eff.emit Collectors.latestReportableBlock.

End Odao.

(** ** rocketpool-api/deposit: commands.go *)

Module DepositCommands.

Import Go.

(** A [*cli.Context], as far as the actions read it. *)
Record Context : Type := mkContext { Args : list string }.

(** [c.Args().Get(n)]: the empty string when there is no such argument. *)
Definition Args_Get (c : Context) (n : nat) : string := nth n (Args c) ""%string.

(** What an action does: the validation and the API functions it calls. *)
Inductive Event : Type :=
| CallValidateAPIArgs (count : nat) (withValidate : bool)
| CallGetRplRequired
| CallGetDepositStatus
| CallReserveDeposit (durationId : string)
| CallCompleteDeposit
| CallCancelDeposit.

(** The functions of the package and of [cliutils] that are not among the
    sources.  An [error] result is [None] for nil.  [ValidateAPIArgs]
    answers with its error and with whether it ran the [validate]
    function it was given. *)
Record Api : Type := mkApi {
  ValidateAPIArgs  : Context -> nat -> bool -> option error * bool;
  getRplRequired   : Context -> option error;
  getDepositStatus : Context -> option error;
  reserveDeposit   : Context -> string -> option error;
  completeDeposit  : Context -> option error;
  cancelDeposit    : Context -> option error
}.

Definition M : Type -> Type := Eff.M Event.

(** A [cli.Command] with the fields the file sets. *)
#[warnings="-register-all"]
Inductive Command : Type :=
| mkCommand (Name : string) (Aliases : list string) (Usage UsageText : string)
    (Action : option (Context -> M (option error)))
    (Subcommands : list Command).

Definition Name (cmd : Command) : string :=
  match cmd with mkCommand n _ _ _ _ _ => n end.
Definition Aliases (cmd : Command) : list string :=
  match cmd with mkCommand _ a _ _ _ _ => a end.
Definition Action (cmd : Command) : option (Context -> M (option error)) :=
  match cmd with mkCommand _ _ _ _ a _ => a end.
Definition Subcommands (cmd : Command) : list Command :=
  match cmd with mkCommand _ _ _ _ _ s => s end.

(** A [*cli.App]. *)
Record App : Type := mkApp { Commands : list Command }.

(** The actions with [cliutils.ValidateAPIArgs(c, 0, nil)]. *)
Definition action0 (api : Api) (run : Context -> option error) (e : Event)
  (c : Context) : M (option error) :=
  Eff.emit (CallValidateAPIArgs 0 false) ;;;
  match fst (ValidateAPIArgs api c 0%nat false) with
  | Some err => Eff.ret (Some err)
  | None => Eff.emit e ;;; Eff.ret (run c)
  end.

(** The action of [reserve]: [durationId] starts as the empty string and
    is assigned by the [validate] function. *)
Definition actionReserve (api : Api) (c : Context) : M (option error) :=
  Eff.emit (CallValidateAPIArgs 1 true) ;;;
  let '(err, ran) := ValidateAPIArgs api c 1%nat true in
  let durationId := if ran then Args_Get c 0 else ""%string in
  match err with
  | Some err => Eff.ret (Some err)
  | None =>
      Eff.emit (CallReserveDeposit durationId) ;;;
      Eff.ret (reserveDeposit api c durationId)
  end.

(** The five subcommands. *)
Definition subcommands (api : Api) : list Command :=
  [ mkCommand "required" ["q"%string]
      "Get the current RPL requirement information"
      "rocketpool deposit required"
      (Some (action0 api (getRplRequired api) CallGetRplRequired)) [];
    mkCommand "status" ["s"%string]
      "Get the current deposit status information"
      "rocketpool deposit status"
      (Some (action0 api (getDepositStatus api) CallGetDepositStatus)) [];
    mkCommand "reserve" ["r"%string]
      "Reserve a node deposit"
      "rocketpool deposit reserve durationID"
      (Some (actionReserve api)) [];
    mkCommand "complete" ["c"%string]
      "Complete a reserved node deposit"
      "rocketpool deposit complete"
      (Some (action0 api (completeDeposit api) CallCompleteDeposit)) [];
    mkCommand "cancel" ["a"%string]
      "Cancel a reserved node deposit"
      "rocketpool deposit cancel"
      (Some (action0 api (cancelDeposit api) CallCancelDeposit)) [] ].

(** [RegisterCommands]. *)
Definition RegisterCommands (api : Api) (app : App) (name : string)
  (aliases : list string) : App :=
  mkApp (Commands app ++
         [mkCommand name aliases "Manage node deposits" "" None (subcommands api)]).

(** The command a word selects, by name or alias ([cli.Command.HasName]);
    the first match wins. *)
Definition HasName (cmd : Command) (word : string) : bool :=
  String.eqb (Name cmd) word || existsb (String.eqb word) (Aliases cmd).

Definition lookup (cmds : list Command) (word : string) : option Command :=
  find (fun cmd => HasName cmd word) cmds.

End DepositCommands.

(** ** Further vocabulary *)

Module More.

Import Go State.

(** The same manager with another logger. *)
Definition withLogger (l : option ColorLogger) (m : NetworkStateManager)
  : NetworkStateManager :=
  mkNetworkStateManager l (Config m) (Network m) (ChainID m) (BeaconConfig m).

(** A trace without its log lines. *)
Definition silent (w : list Event) : list Event :=
  filter (fun e => negb (is_Log e)) w.

(** The error a goroutine of the legacy ODAO collection returns. *)
Definition failure (env : Collectors.Env) (g : Collectors.Goroutine)
  : option error :=
  match g with
  | Collectors.GoBlockNumber =>
      match Collectors.rp_BlockNumber env with
      | Err err => Some (Errorf_w "Error getting latest ETH1 block: " err)
      | Ok _ => None
      end
  | Collectors.GoPricesBlock =>
      match Collectors.network_GetPricesBlock env with
      | Err err => Some (Errorf_w "Error getting ETH1 prices block: " err)
      | Ok _ => None
      end
  | Collectors.GoLatestReportable =>
      match Collectors.network_GetLatestReportablePricesBlock env with
      | Err err =>
          Some (Errorf_w "Error getting ETH1 latest reportable block: " err)
      | Ok _ => None
      end
  end.

(** The error of the first goroutine to fail, in completion order. *)
Fixpoint firstFailure (env : Collectors.Env) (sched : list Collectors.Goroutine)
  : option error :=
  match sched with
  | [] => None
  | g :: sched' =>
      match failure env g with
      | Some e => Some e
      | None => firstFailure env sched'
      end
  end.

(** The descriptors of the gauges of a trace, in order. *)
Definition sentDescs (w : list Collectors.Event) : list Collectors.Desc :=
  flat_map (fun e => match e with
                     | Collectors.Send d _ => [d]
                     | _ => []
                     end) w.

Definition demandDescs {F : Type} (w : list (Demand.Event F)) : list Demand.Desc :=
  flat_map (fun e => match e with
                     | Demand.Send d _ => [d]
                     | _ => []
                     end) w.

(** How many queries of the demand collector failed. *)
Definition demandFailures (env : Demand.Env) : nat :=
  (if is_Err (Demand.deposit_GetBalance env) then 1 else 0)
  + (if is_Err (Demand.deposit_GetExcessBalance env) then 1 else 0)
  + (if is_Err (Demand.minipool_GetQueueCapacity env) then 1 else 0).

(** The gauge of one amount of the demand collector. *)
Definition demandGauge {F : Type} (minusOne : F) (WeiToEth : Z -> F)
  (r : result Z) : F :=
  match r with
  | Ok wei => WeiToEth wei
  | Err _ => minusOne
  end.

(** An action of a deposit subcommand that announces [count] arguments
    (with or without a [validate] function), then calls the API function
    recorded as [call] and returns what it answers, [run]; both may depend
    on whether the validation ran the [validate] function.  A validation
    error is returned at once. *)
Definition actsAs (api : DepositCommands.Api)
  (act : DepositCommands.Context -> DepositCommands.M (option error))
  (count : nat) (withValidate : bool)
  (call : DepositCommands.Context -> bool -> DepositCommands.Event)
  (run : DepositCommands.Context -> bool -> option error) : Prop :=
  forall (c : DepositCommands.Context) (w : list DepositCommands.Event),
    act c w
    = match DepositCommands.ValidateAPIArgs api c count withValidate with
      | (Some err, _) =>
          (Some err, w ++ [DepositCommands.CallValidateAPIArgs count withValidate])
      | (None, ran) =>
          (run c ran,
           w ++ [DepositCommands.CallValidateAPIArgs count withValidate;
                 call c ran])
      end.

(** The argument [reserve] passes on: the first argument if the
    validation ran the function that reads it, the empty string if not. *)
Definition durationIdOf (c : DepositCommands.Context) (ran : bool) : string :=
  if ran then DepositCommands.Args_Get c 0 else ""%string.

End More.

(** Further scenarios. *)

Module Scenarios2.

Import Go.

Definition envOneFails : Collectors.Env :=
  Collectors.mkEnv None (Ok 17000005) (Err Scenarios.timeout) (Err Scenarios.refused)
    [Collectors.GoLatestReportable; Collectors.GoBlockNumber;
     Collectors.GoPricesBlock].

(** A manager whose configuration has no slot duration, and one with no
    slots per epoch. *)
Definition managerNoDuration : State.NetworkStateManager :=
  State.mkNetworkStateManager Scenarios.logger Scenarios.rpConfig "mainnet" 1
    (mkEth2Config 0 1000 0 32 0).

Definition managerNoSlots : State.NetworkStateManager :=
  State.mkNetworkStateManager Scenarios.logger Scenarios.rpConfig "mainnet" 1
    (mkEth2Config 0 1000 12 0 0).

Definition clientsNoHead : State.Clients :=
  Scenarios.clients (Ok Scenarios.config) (Err Scenarios.refused)
    Scenarios.only125 (Ok (State.mkHeader 77 1600)) time.neg_wraps.

(** A stand-in for [eth.WeiToEth] on integers: whole ether. *)
Definition wholeEth (wei : Z) : Z := wei / 10 ^ 18.

Definition demandEnv : Demand.Env :=
  Demand.mkEnv (Ok (5 * 10 ^ 18)) (Err Scenarios.timeout)
    (Ok (Demand.mkQueueCapacity (64 * 10 ^ 18) (32 * 10 ^ 18))).

(** An API whose validation accepts exactly the announced number of
    arguments and whose functions succeed. *)
Definition badArgs : error := ClientError "Incorrect argument count".

Definition api : DepositCommands.Api :=
  DepositCommands.mkApi
    (fun c count _ =>
       if Nat.eqb (List.length (DepositCommands.Args c)) count
       then (None, true) else (Some badArgs, false))
    (fun _ => None) (fun _ => None) (fun _ _ => None)
    (fun _ => None) (fun _ => None).

(** The execution head is stamped more than 292 years after genesis. *)
Definition clientsFar : State.Clients :=
  Scenarios.clients (Ok Scenarios.config) (Ok (State.mkBeaconHead 5 3 4))
    Scenarios.only125 (Ok (State.mkHeader 77 20000000000)) time.neg_wraps.

(** The beacon client now answers with another configuration than the
    one a manager built earlier has stored. *)
Definition clientsRotated : State.Clients :=
  Scenarios.clients (Ok Scenarios.configUnit) (Ok (State.mkBeaconHead 5 3 4))
    Scenarios.only125 (Ok (State.mkHeader 77 1600)) time.neg_wraps.

End Scenarios2.

(** * Properties *)

(** ** Machine arithmetic *)

Lemma wrap64_small (z : Z) : Go.is_uint64 z -> Go.wrap64 z = z.
Proof. unfold Go.is_uint64, Go.wrap64. intros H. apply Z.mod_small. exact H. Qed.

Lemma wrap64_range (z : Z) : Go.is_uint64 (Go.wrap64 z).
Proof.
  unfold Go.is_uint64, Go.wrap64, Go.two64.
  apply Z.mod_pos_bound. reflexivity.
Qed.

Lemma wrap_i64_small (z : Z) : Go.is_int64 z -> Go.wrap_i64 z = z.
Proof.
  unfold Go.is_int64, Go.wrap_i64, Go.two64, Go.two63. intros H.
  rewrite Z.mod_small; lia.
Qed.

Lemma sub64_borrow (a b : Z) :
  Go.is_uint64 a -> Go.is_uint64 b -> a < b -> Go.sub64 a b = Go.two64 + a - b.
Proof.
  unfold Go.is_uint64, Go.sub64, Go.wrap64, Go.two64. intros Ha Hb Hlt.
  symmetry. apply (Z.mod_unique (a - b) (2 ^ 64) (-1)); lia.
Qed.

Lemma sub64_no_borrow (a b : Z) :
  Go.is_uint64 a -> Go.is_uint64 b -> b <= a -> Go.sub64 a b = a - b.
Proof.
  unfold Go.is_uint64, Go.sub64, Go.wrap64, Go.two64. intros Ha Hb Hle.
  apply Z.mod_small. lia.
Qed.

Lemma div64_pos (a b : Z) : 0 < b -> Go.div64 a b = Some (a / b).
Proof.
  intros Hb. unfold Go.div64.
  destruct (Z.eqb_spec b 0); [lia | reflexivity].
Qed.

Lemma div64_zero (a : Z) : Go.div64 a 0 = None.
Proof. reflexivity. Qed.

(** The conversion to [float64] is exact below 2^53 and rounds to even
    above. *)
Example float64_of_uint64_exact : Go.float64_of_uint64 17000000 = 17000000.
Proof. reflexivity. Qed.

Example float64_of_uint64_ties_to_even :
  Go.float64_of_uint64 (2 ^ 53 + 1) = 2 ^ 53
  /\ Go.float64_of_uint64 (2 ^ 53 + 3) = 2 ^ 53 + 4
  /\ Go.float64_of_uint64 (2 ^ 64 - 1) = 2 ^ 64.
Proof. repeat split; reflexivity. Qed.

Example Sprint_uint64 :
  Go.Sprint 0 = "0"%string /\ Go.Sprint 127 = "127"%string
  /\ Go.Sprint (Go.two64 - 1) = "18446744073709551615"%string.
Proof. repeat split; reflexivity. Qed.

(** ** watchtower.epochAt *)

Example epochAt_mainnet :
  Watchtower.epochAt (mkEth2Config 0 1606824023 12 32 384) (1606824023 + 384 * 7 + 5)
  = Some 7.
Proof. reflexivity. Qed.

Example epochAt_zero_divisor :
  Watchtower.epochAt (mkEth2Config 0 1000 12 32 0) 1600 = None.
Proof. reflexivity. Qed.

(** C6.  For a configuration with a positive [SecondsPerEpoch] (the
    divisor; the data model has no other) and a time [t] at or after
    genesis, [epochAt] returns, without panic,
    [GenesisEpoch + floor((t - GenesisTime) / SecondsPerEpoch)], the sum
    being the [uint64] sum of the code; when the sum fits in 64 bits it is
    the mathematical value.  The result is a function of the two
    arguments alone. *)
Theorem epochAt_from_genesis (c : Eth2Config) (t : Z) :
  Eth2Config_typed c -> 0 < SecondsPerEpoch c ->
  Go.is_uint64 t -> GenesisTime c <= t ->
  Watchtower.epochAt c t
    = Some (Go.wrap64 (GenesisEpoch c + (t - GenesisTime c) / SecondsPerEpoch c))
  /\ (GenesisEpoch c + (t - GenesisTime c) / SecondsPerEpoch c < Go.two64 ->
      Watchtower.epochAt c t
        = Some (GenesisEpoch c + (t - GenesisTime c) / SecondsPerEpoch c)).
Proof.
  intros Hty Hspe Ht Hge.
  destruct Hty as (Hge0 & Hgt & _ & _ & _).
  assert (Heq : Watchtower.epochAt c t
    = Some (Go.wrap64 (GenesisEpoch c + (t - GenesisTime c) / SecondsPerEpoch c))).
  { unfold Watchtower.epochAt.
    rewrite div64_pos by exact Hspe.
    rewrite sub64_no_borrow by assumption. reflexivity. }
  split; [exact Heq |].
  intros Hfit. rewrite Heq. f_equal. apply wrap64_small.
  unfold Go.is_uint64 in *. split; [| exact Hfit].
  assert (0 <= (t - GenesisTime c) / SecondsPerEpoch c)
    by (apply Z.div_pos; lia).
  lia.
Qed.

Lemma epochAt_from_genesis_witness :
  Watchtower.epochAt (mkEth2Config 0 1606824023 12 32 384) 1606826716 = Some 7.
Proof.
  pose proof (epochAt_from_genesis (mkEth2Config 0 1606824023 12 32 384) 1606826716) as H.
  cbv [GenesisEpoch GenesisTime SecondsPerEpoch] in H.
  destruct H as [H _].
  - unfold Eth2Config_typed, Go.is_uint64, Go.two64; simpl; lia.
  - lia.
  - unfold Go.is_uint64, Go.two64; lia.
  - lia.
  - exact H.
Defined.

(** C9.  For a configuration with a positive [SecondsPerEpoch] and a
    time [t] before genesis, [epochAt] signals nothing: the subtraction wraps to
    [2^64 + t - GenesisTime], and the function returns
    [GenesisEpoch + ((t - GenesisTime) mod 2^64) / SecondsPerEpoch] (a
    [uint64] sum), whose quotient is at least
    [(2^64 - GenesisTime) / SecondsPerEpoch]. *)
Theorem epochAt_before_genesis_wraps (c : Eth2Config) (t : Z) :
  Eth2Config_typed c -> 0 < SecondsPerEpoch c ->
  Go.is_uint64 t -> t < GenesisTime c ->
  let q := ((t - GenesisTime c) mod Go.two64) / SecondsPerEpoch c in
  Watchtower.epochAt c t = Some (Go.wrap64 (GenesisEpoch c + q))
  /\ (t - GenesisTime c) mod Go.two64 = Go.two64 + t - GenesisTime c
  /\ (Go.two64 - GenesisTime c) / SecondsPerEpoch c <= q
  /\ (GenesisEpoch c + q < Go.two64 ->
      Watchtower.epochAt c t = Some (GenesisEpoch c + q)).
Proof.
  intros Hty Hspe Ht Hlt q.
  destruct Hty as (Hge0 & Hgt & _ & _ & _).
  pose proof (sub64_borrow t (GenesisTime c) Ht Hgt Hlt) as Hsub.
  unfold Go.sub64, Go.wrap64 in Hsub.
  assert (Heq : Watchtower.epochAt c t = Some (Go.wrap64 (GenesisEpoch c + q))).
  { unfold Watchtower.epochAt. rewrite div64_pos by exact Hspe.
    reflexivity. }
  assert (Hq : (Go.two64 - GenesisTime c) / SecondsPerEpoch c <= q).
  { unfold q. rewrite Hsub. apply Z.div_le_mono; [exact Hspe |].
    unfold Go.is_uint64 in Ht. lia. }
  repeat split; try assumption.
  intros Hfit. rewrite Heq. f_equal. apply wrap64_small.
  unfold Go.is_uint64 in *. split; [| exact Hfit].
  assert (0 <= (Go.two64 - GenesisTime c) / SecondsPerEpoch c)
    by (apply Z.div_pos; lia).
  lia.
Qed.

Lemma epochAt_before_genesis_wraps_witness :
  Watchtower.epochAt (mkEth2Config 0 1000 12 32 384) 999
  = Some 48038396025285290.
Proof.
  pose proof (epochAt_before_genesis_wraps (mkEth2Config 0 1000 12 32 384) 999) as H.
  cbv [GenesisEpoch GenesisTime SecondsPerEpoch] in H.
  destruct H as [H _].
  - unfold Eth2Config_typed, Go.is_uint64, Go.two64; simpl; lia.
  - lia.
  - unfold Go.is_uint64, Go.two64; lia.
  - lia.
  - exact H.
Defined.

Lemma string_append_assoc (s1 s2 s3 : string) :
  ((s1 ++ s2) ++ s3 = s1 ++ (s2 ++ s3))%string.
Proof.
  induction s1 as [|a s1 IH]; [reflexivity |].
  simpl. rewrite IH. reflexivity.
Qed.

(** Below any bound, either every answer is a missing slot or one is
    not. *)
Lemma bounded_all_or_one (f : nat -> bool) (n : nat) :
  (forall i, (i < n)%nat -> f i = true)
  \/ exists i, (i < n)%nat /\ f i = false.
Proof.
  induction n as [|n IHn].
  - left. intros i Hi. lia.
  - destruct IHn as [Hall | (i & Hi & Hf)].
    + destruct (f n) eqn:Hfn.
      * left. intros i Hi.
        destruct (Nat.eq_dec i n) as [-> | Hne]; [exact Hfn | apply Hall; lia].
      * right. exists n. split; [lia | exact Hfn].
    + right. exists i. split; [lia | exact Hf].
Qed.

(** ** The backward scan of GetLatestFinalizedBeaconBlock *)

Section ScanFacts.

Import Go State Scan.

Variable c : Clients.
Variable m : NetworkStateManager.

Lemma probes_app (w1 w2 : list Event) :
  probes (w1 ++ w2) = (probes w1 + probes w2)%nat.
Proof. unfold probes. rewrite filter_app, length_app. reflexivity. Qed.

Lemma probes_skipEvents (slot : Z) : probes (skipEvents m slot) = 1%nat.
Proof. unfold skipEvents, probes. destruct (log m); reflexivity. Qed.

Lemma scanSlot_0 (target : Z) : is_uint64 target -> scanSlot target 0 = target.
Proof. intros H. unfold scanSlot. rewrite Z.sub_0_r. apply wrap64_small, H. Qed.

Lemma scanSlot_S (target : Z) (i : nat) :
  scanSlot (sub64 target 1) i = scanSlot target (S i).
Proof.
  unfold scanSlot, sub64, wrap64.
  rewrite Zminus_mod_idemp_l. f_equal. lia.
Qed.

Lemma sub64_uint64 (a b : Z) : is_uint64 (sub64 a b).
Proof. apply wrap64_range. Qed.

Lemma skipTrace_S (target : Z) (k : nat) :
  is_uint64 target ->
  skipTrace m target (S k)
  = skipEvents m target ++ skipTrace m (sub64 target 1) k.
Proof.
  intros Ht. unfold skipTrace.
  rewrite <- cons_seq, <- seq_shift. cbn [flat_map].
  rewrite scanSlot_0 by exact Ht. f_equal.
  induction (seq 0 k) as [|i l IH]; [reflexivity |].
  cbn [map flat_map]. rewrite IH, scanSlot_S. reflexivity.
Qed.

(** One turn on a missing slot: the probe, the diagnostic, the
    decrement. *)
Lemma loopBody_missing (targetSlot : Z) (w : list Event) :
  is_missing (bc_GetBeaconBlock c (probes w) (Sprint targetSlot)) = true ->
  loopBody c m targetSlot w
  = (inl (sub64 targetSlot 1), w ++ skipEvents m targetSlot).
Proof.
  intros H. unfold loopBody, GetBeaconBlock, Eff.bind, Eff.calls, Eff.emit, Eff.ret.
  fold (probes w).
  destruct (bc_GetBeaconBlock c (probes w) (Sprint targetSlot)) as [[b [|]]|e];
    simpl in H; try discriminate.
  unfold logLine, skipEvents, Eff.emit, Eff.ret. simpl.
  destruct (log m); [rewrite <- app_assoc |]; reflexivity.
Qed.

(** One turn on any other answer: the probe, and the return. *)
Lemma loopBody_answer (targetSlot : Z) (w : list Event) :
  is_missing (bc_GetBeaconBlock c (probes w) (Sprint targetSlot)) = false ->
  loopBody c m targetSlot w
  = (inr (answer targetSlot (bc_GetBeaconBlock c (probes w) (Sprint targetSlot))),
     w ++ [CallGetBeaconBlock (Sprint targetSlot)]).
Proof.
  intros H. unfold loopBody, GetBeaconBlock, Eff.bind, Eff.calls, Eff.emit, Eff.ret.
  fold (probes w).
  destruct (bc_GetBeaconBlock c (probes w) (Sprint targetSlot)) as [[b [|]]|e];
    simpl in H; try discriminate; reflexivity.
Qed.

(** As long as every probe finds its slot missing the loop goes on. *)
Lemma loop_all_missing (fuel : nat) :
  forall (target : Z) (w : list Event),
    is_uint64 target ->
    (forall i, (i < fuel)%nat ->
       is_missing (scanResponse c (probes w) target i) = true) ->
    loop fuel c m target w = (None, w ++ skipTrace m target fuel).
Proof.
  induction fuel as [|fuel IH]; intros target w Ht Hmiss.
  - simpl. unfold Eff.ret. rewrite app_nil_r. reflexivity.
  - cbn [loop]. unfold Eff.bind.
    rewrite loopBody_missing.
    + rewrite IH.
      * rewrite skipTrace_S by exact Ht. rewrite <- app_assoc. reflexivity.
      * apply sub64_uint64.
      * intros i Hi. unfold scanResponse.
        rewrite probes_app, probes_skipEvents, scanSlot_S.
        replace (probes w + 1 + i)%nat with (probes w + S i)%nat by lia.
        apply Hmiss. lia.
    + specialize (Hmiss 0%nat ltac:(lia)). unfold scanResponse in Hmiss.
      rewrite scanSlot_0, Nat.add_0_r in Hmiss by exact Ht. exact Hmiss.
Qed.

(** The loop returns at the first probe whose answer is not a missing
    slot, whatever fuel is left. *)
Lemma loop_first_answer (k : nat) :
  forall (fuel : nat) (target : Z) (w : list Event),
    is_uint64 target ->
    (forall i, (i < k)%nat ->
       is_missing (scanResponse c (probes w) target i) = true) ->
    is_missing (scanResponse c (probes w) target k) = false ->
    (k < fuel)%nat ->
    loop fuel c m target w
    = (Some (answer (scanSlot target k) (scanResponse c (probes w) target k)),
       w ++ skipTrace m target k ++ [CallGetBeaconBlock (Sprint (scanSlot target k))]).
Proof.
  induction k as [|k IH]; intros fuel target w Ht Hmiss Hans Hfuel.
  - destruct fuel as [|fuel]; [lia |].
    unfold scanResponse in *. rewrite scanSlot_0, Nat.add_0_r in * by exact Ht.
    simpl. unfold Eff.bind. rewrite loopBody_answer by exact Hans.
    reflexivity.
  - destruct fuel as [|fuel]; [lia |].
    cbn [loop]. unfold Eff.bind.
    rewrite loopBody_missing.
    + rewrite (IH fuel).
      * unfold scanResponse.
        rewrite probes_app, probes_skipEvents, scanSlot_S.
        replace (probes w + 1 + k)%nat with (probes w + S k)%nat by lia.
        rewrite skipTrace_S by exact Ht.
        rewrite <- !app_assoc. reflexivity.
      * apply sub64_uint64.
      * intros i Hi. unfold scanResponse.
        rewrite probes_app, probes_skipEvents, scanSlot_S.
        replace (probes w + 1 + i)%nat with (probes w + S i)%nat by lia.
        apply Hmiss. lia.
      * unfold scanResponse in *.
        rewrite probes_app, probes_skipEvents, scanSlot_S.
        replace (probes w + 1 + k)%nat with (probes w + S k)%nat by lia.
        exact Hans.
      * lia.
    + specialize (Hmiss 0%nat ltac:(lia)). unfold scanResponse in Hmiss.
      rewrite scanSlot_0, Nat.add_0_r in Hmiss by exact Ht. exact Hmiss.
Qed.

(** Among the answers of a scan, a first one that is not a missing slot
    can be found below any one that is not. *)
Lemma first_answer (f : nat -> bool) (n : nat) :
  f n = false ->
  exists k, (k <= n)%nat /\ f k = false /\ forall i, (i < k)%nat -> f i = true.
Proof.
  induction n as [n IH] using (well_founded_induction Wf_nat.lt_wf).
  intros Hn.
  destruct (bounded_all_or_one f n) as [Hall | (i & Hi & Hf)].
  - exists n. repeat split; [lia | exact Hn | exact Hall].
  - destruct (IH i Hi Hf) as (k & Hk & Hfk & Hbelow).
    exists k. repeat split; [lia | exact Hfk | exact Hbelow].
Qed.

(** The log lines and the config fetches of a run of skips. *)
Lemma logLines_skipTrace (target : Z) (k : nat) :
  logLines (skipTrace m target k) = match log m with Some _ => k | None => O end.
Proof.
  unfold skipTrace.
  assert (H : forall l : list nat,
    logLines (flat_map (fun i => skipEvents m (scanSlot target i)) l)
    = match log m with Some _ => List.length l | None => O end).
  { induction l as [|i l IH].
    - destruct (log m); reflexivity.
    - cbn [flat_map]. unfold logLines in *. rewrite filter_app, length_app, IH.
      unfold skipEvents. destruct (log m); reflexivity. }
  rewrite H, length_seq. reflexivity.
Qed.

Lemma probes_skipTrace (target : Z) (k : nat) :
  probes (skipTrace m target k) = k.
Proof.
  unfold skipTrace.
  assert (H : forall l : list nat,
    probes (flat_map (fun i => skipEvents m (scanSlot target i)) l)
    = List.length l).
  { induction l as [|i l IH].
    - reflexivity.
    - cbn [flat_map]. rewrite probes_app, probes_skipEvents, IH. reflexivity. }
  rewrite H, length_seq. reflexivity.
Qed.

End ScanFacts.

(** The value of the first probed slot. *)
Lemma finalizedTargetSlot_formula (head : State.BeaconHead) (cfg : Eth2Config) :
  State.finalizedTargetSlot head cfg
  = Go.wrap64 (State.FinalizedEpoch head * SlotsPerEpoch cfg + (SlotsPerEpoch cfg - 1)).
Proof.
  unfold State.finalizedTargetSlot, Go.add64, Go.mul64, Go.sub64, Go.wrap64.
  rewrite <- Zplus_mod. reflexivity.
Qed.

Lemma finalizedTargetSlot_uint64 (head : State.BeaconHead) (cfg : Eth2Config) :
  Go.is_uint64 (State.finalizedTargetSlot head cfg).
Proof. apply wrap64_range. Qed.

Lemma heads_app (w1 w2 : list State.Event) :
  Scan.heads (w1 ++ w2) = (Scan.heads w1 + Scan.heads w2)%nat.
Proof. unfold Scan.heads. rewrite filter_app, length_app. reflexivity. Qed.

(** After the chain head is fetched the function is its loop. *)
Lemma GetLatestFinalizedBeaconBlock_head_ok (fuel : nat) (c : State.Clients)
  (m : State.NetworkStateManager) (w : list State.Event) (head : State.BeaconHead) :
  State.bc_GetBeaconHead c (Scan.heads w) = Go.Ok head ->
  State.GetLatestFinalizedBeaconBlock fuel c m w
  = State.loop fuel c m (State.finalizedTargetSlot head (State.BeaconConfig m))
      (w ++ [State.CallGetBeaconHead]).
Proof.
  intros H. unfold State.GetLatestFinalizedBeaconBlock, State.GetBeaconHead,
    Eff.bind, Eff.calls, Eff.emit, Eff.ret.
  fold (Scan.heads w). rewrite H. reflexivity.
Qed.

Lemma probes_after_head (w : list State.Event) :
  Scan.probes (w ++ [State.CallGetBeaconHead]) = Scan.probes w.
Proof. rewrite probes_app. simpl. apply Nat.add_0_r. Qed.

(** C1.  Once the chain head is fetched, the scan starts at
    [FinalizedEpoch * SlotsPerEpoch + (SlotsPerEpoch - 1)] (in [uint64]
    arithmetic, and exactly that number when it fits 64 bits).  If the
    first [k] probes find their slots missing and the next one finds a
    block, the function returns that block, given fuel for [k + 1] turns;
    the probes were made at the slots [target], [target - 1], ...,
    [target - k] in this order, one per slot, each missing slot followed
    by its diagnostic and a decrement, and with a logger configured
    exactly [k] diagnostics were written. *)
Theorem finalized_block_is_first_existing
  (c : State.Clients) (m : State.NetworkStateManager) (w : list State.Event)
  (head : State.BeaconHead) (k fuel : nat) (b : State.BeaconBlock) :
  State.bc_GetBeaconHead c (Scan.heads w) = Go.Ok head ->
  (forall i, (i < k)%nat ->
     Scan.is_missing
       (Scan.scanResponse c (Scan.probes w)
          (State.finalizedTargetSlot head (State.BeaconConfig m)) i) = true) ->
  Scan.scanResponse c (Scan.probes w)
    (State.finalizedTargetSlot head (State.BeaconConfig m)) k = Go.Ok (b, true) ->
  (k < fuel)%nat ->
  let e := State.FinalizedEpoch head in
  let spe := SlotsPerEpoch (State.BeaconConfig m) in
  let target := State.finalizedTargetSlot head (State.BeaconConfig m) in
  target = Go.wrap64 (e * spe + (spe - 1))
  /\ (0 <= e * spe + (spe - 1) < Go.two64 -> target = e * spe + (spe - 1))
  /\ State.GetLatestFinalizedBeaconBlock fuel c m w
     = (Some (Go.Ok b),
        w ++ [State.CallGetBeaconHead] ++ Scan.skipTrace m target k
          ++ [State.CallGetBeaconBlock (Go.Sprint (Scan.scanSlot target k))])
  /\ Scan.probes (Scan.skipTrace m target k) = k
  /\ (State.log m <> None -> Scan.logLines (Scan.skipTrace m target k) = k).
Proof.
  intros Hhead Hmiss Hfound Hfuel e spe target.
  assert (Hformula : target = Go.wrap64 (e * spe + (spe - 1)))
    by apply finalizedTargetSlot_formula.
  split; [exact Hformula |].
  split; [intros Hfit; rewrite Hformula; apply wrap64_small; exact Hfit |].
  split.
  - rewrite (GetLatestFinalizedBeaconBlock_head_ok fuel c m w head Hhead).
    fold target.
    rewrite (loop_first_answer c m k fuel target).
    + rewrite probes_after_head. fold target in Hfound. rewrite Hfound.
      rewrite <- app_assoc. reflexivity.
    + apply finalizedTargetSlot_uint64.
    + intros i Hi. rewrite probes_after_head. apply Hmiss, Hi.
    + rewrite probes_after_head. fold target in Hfound. rewrite Hfound.
      reflexivity.
    + exact Hfuel.
  - split; [apply probes_skipTrace |].
    intros Hlog. rewrite logLines_skipTrace.
    destruct (State.log m); [reflexivity | congruence].
Qed.

(** Scenario B of the specification: finalized epoch 3 and 32 slots per
    epoch, slots 127 and 126 empty, a block at slot 125. *)
Lemma finalized_block_is_first_existing_witness :
  State.GetLatestFinalizedBeaconBlock 3 Scenarios.clientsB Scenarios.manager []
  = (Some (Go.Ok Scenarios.block125),
     [State.CallGetBeaconHead;
      State.CallGetBeaconBlock "127"; State.LogPrintlnf State.skipFormat [127];
      State.CallGetBeaconBlock "126"; State.LogPrintlnf State.skipFormat [126];
      State.CallGetBeaconBlock "125"]).
Proof.
  refine (proj1 (proj2 (proj2
    (finalized_block_is_first_existing Scenarios.clientsB Scenarios.manager []
       (State.mkBeaconHead 5 3 4) 2 3 Scenarios.block125 _ _ _ _)))).
  - reflexivity.
  - intros i Hi.
    destruct i as [|[|i]]; [reflexivity | reflexivity | lia].
  - reflexivity.
  - lia.
Defined.

(** C3.  If the first [k] probes find their slots missing and the next
    probe fails with [err], the function returns [err] wrapped in a
    message that names the slot being probed, whatever fuel is left
    beyond [k + 1] turns: the failed probe is the last event of the
    trace, so the slot is not decremented, nothing is logged for it and
    no further probe is made. *)
Theorem probe_error_aborts_scan
  (c : State.Clients) (m : State.NetworkStateManager) (w : list State.Event)
  (head : State.BeaconHead) (k fuel : nat) (err : Go.error) :
  State.bc_GetBeaconHead c (Scan.heads w) = Go.Ok head ->
  (forall i, (i < k)%nat ->
     Scan.is_missing
       (Scan.scanResponse c (Scan.probes w)
          (State.finalizedTargetSlot head (State.BeaconConfig m)) i) = true) ->
  Scan.scanResponse c (Scan.probes w)
    (State.finalizedTargetSlot head (State.BeaconConfig m)) k = Go.Err err ->
  (k < fuel)%nat ->
  let target := State.finalizedTargetSlot head (State.BeaconConfig m) in
  let slot := Scan.scanSlot target k in
  State.GetLatestFinalizedBeaconBlock fuel c m w
  = (Some (Go.Err (Scan.probeError slot err)),
     w ++ [State.CallGetBeaconHead] ++ Scan.skipTrace m target k
       ++ [State.CallGetBeaconBlock (Go.Sprint slot)])
  /\ Go.Error (Scan.probeError slot err)
     = ("error getting Beacon block " ++ Go.Sprint slot ++ ": " ++ Go.Error err)%string
  /\ Go.Unwrap (Scan.probeError slot err) = Some err
  /\ Scan.probes (Scan.skipTrace m target k
                  ++ [State.CallGetBeaconBlock (Go.Sprint slot)]) = S k.
Proof.
  intros Hhead Hmiss Herr Hfuel target slot.
  split; [| split; [| split]].
  - rewrite (GetLatestFinalizedBeaconBlock_head_ok fuel c m w head Hhead).
    fold target.
    rewrite (loop_first_answer c m k fuel target).
    + rewrite probes_after_head. fold target in Herr. rewrite Herr.
      rewrite <- app_assoc. reflexivity.
    + apply finalizedTargetSlot_uint64.
    + intros i Hi. rewrite probes_after_head. apply Hmiss, Hi.
    + rewrite probes_after_head. fold target in Herr. rewrite Herr.
      reflexivity.
    + exact Hfuel.
  - unfold Scan.probeError. cbn [Go.Error].
    rewrite !string_append_assoc. reflexivity.
  - reflexivity.
  - rewrite probes_app, probes_skipTrace. unfold Scan.probes. simpl. lia.
Qed.

(** Slot 127 is empty and the probe of slot 126 times out. *)
Lemma probe_error_aborts_scan_witness :
  State.GetLatestFinalizedBeaconBlock 10 Scenarios.clientsFail126 Scenarios.manager []
  = (Some (Go.Err (Go.Errorf_w "error getting Beacon block 126: " Scenarios.timeout)),
     [State.CallGetBeaconHead;
      State.CallGetBeaconBlock "127"; State.LogPrintlnf State.skipFormat [127];
      State.CallGetBeaconBlock "126"]).
Proof.
  refine (proj1
    (probe_error_aborts_scan Scenarios.clientsFail126 Scenarios.manager []
       (State.mkBeaconHead 5 3 4) 1 10 Scenarios.timeout _ _ _ _)).
  - reflexivity.
  - intros i Hi. destruct i as [|i]; [reflexivity | lia].
  - reflexivity.
  - lia.
Defined.

(** A scan whose every probe finds its slot missing never returns. *)
Lemma scan_without_answer_diverges
  (c : State.Clients) (m : State.NetworkStateManager) (w : list State.Event)
  (head : State.BeaconHead) :
  State.bc_GetBeaconHead c (Scan.heads w) = Go.Ok head ->
  (forall i,
     Scan.is_missing
       (Scan.scanResponse c (Scan.probes w)
          (State.finalizedTargetSlot head (State.BeaconConfig m)) i) = true) ->
  forall fuel,
    State.GetLatestFinalizedBeaconBlock fuel c m w
    = (None,
       w ++ [State.CallGetBeaconHead]
         ++ Scan.skipTrace m (State.finalizedTargetSlot head (State.BeaconConfig m)) fuel).
Proof.
  intros Hhead Hmiss fuel.
  rewrite (GetLatestFinalizedBeaconBlock_head_ok fuel c m w head Hhead).
  rewrite loop_all_missing.
  - rewrite <- app_assoc. reflexivity.
  - apply finalizedTargetSlot_uint64.
  - intros i _. rewrite probes_after_head. apply Hmiss.
Qed.

(** C2, refuted.  Finalized epoch 0 with one slot per epoch puts the
    first probe at slot 0.  On a chain without any block the function has
    not returned after any number of turns, and the probe that follows
    the one of slot 0 is at slot 2^64 - 1: the decrement wraps and the
    loop goes on. *)
Lemma scan_passes_slot_zero :
  (forall fuel,
     fst (State.GetLatestFinalizedBeaconBlock fuel
            Scenarios.clientsEmpty Scenarios.managerUnit []) = None)
  /\ snd (State.GetLatestFinalizedBeaconBlock 2
            Scenarios.clientsEmpty Scenarios.managerUnit [])
     = [State.CallGetBeaconHead;
        State.CallGetBeaconBlock "0";
        State.LogPrintlnf State.skipFormat [0];
        State.CallGetBeaconBlock "18446744073709551615";
        State.LogPrintlnf State.skipFormat [18446744073709551615]].
Proof.
  split.
  - intros fuel.
    rewrite (scan_without_answer_diverges Scenarios.clientsEmpty
               Scenarios.managerUnit [] (State.mkBeaconHead 0 0 0)).
    + reflexivity.
    + reflexivity.
    + intros i. reflexivity.
  - vm_compute. reflexivity.
Qed.

(** C2, amended.  Once the chain head is fetched, the function returns
    (given enough fuel) exactly when some probe of the scan is answered
    by an error or by an existing block; there is no guard at slot 0: a
    missing slot 0 sends the loop on to slot 2^64 - 1. *)
Theorem scan_returns_iff_answered
  (c : State.Clients) (m : State.NetworkStateManager) (w : list State.Event)
  (head : State.BeaconHead) :
  State.bc_GetBeaconHead c (Scan.heads w) = Go.Ok head ->
  let target := State.finalizedTargetSlot head (State.BeaconConfig m) in
  ((exists fuel, fst (State.GetLatestFinalizedBeaconBlock fuel c m w) <> None)
   <-> (exists k, Scan.is_missing (Scan.scanResponse c (Scan.probes w) target k) = false))
  /\ (forall w',
        Scan.is_missing (State.bc_GetBeaconBlock c (Scan.probes w') (Go.Sprint 0)) = true ->
        fst (State.loopBody c m 0 w') = inl (Go.two64 - 1)).
Proof.
  intros Hhead target. split; [split |].
  - intros (fuel & Hret).
    destruct (bounded_all_or_one
      (fun i => Scan.is_missing (Scan.scanResponse c (Scan.probes w) target i))
      fuel) as [Hall | (k & _ & Hk)].
    + exfalso. apply Hret.
      rewrite (GetLatestFinalizedBeaconBlock_head_ok fuel c m w head Hhead).
      fold target. rewrite loop_all_missing.
      * reflexivity.
      * apply finalizedTargetSlot_uint64.
      * intros i Hi. rewrite probes_after_head. apply Hall, Hi.
    + exists k. exact Hk.
  - intros (n & Hn).
    destruct (first_answer
      (fun i => Scan.is_missing (Scan.scanResponse c (Scan.probes w) target i))
      n Hn) as (k & _ & Hk & Hbelow).
    exists (S k).
    rewrite (GetLatestFinalizedBeaconBlock_head_ok (S k) c m w head Hhead).
    fold target. rewrite (loop_first_answer c m k (S k) target).
    + discriminate.
    + apply finalizedTargetSlot_uint64.
    + intros i Hi. rewrite probes_after_head. apply Hbelow, Hi.
    + rewrite probes_after_head. exact Hk.
    + lia.
  - intros w' Hmiss. rewrite loopBody_missing by exact Hmiss. reflexivity.
Qed.

(** The scan of scenario B returns; the empty chain is the other side. *)
Lemma scan_returns_iff_answered_witness :
  exists fuel,
    fst (State.GetLatestFinalizedBeaconBlock fuel
           Scenarios.clientsB Scenarios.manager []) <> None.
Proof.
  apply (proj1 (scan_returns_iff_answered Scenarios.clientsB Scenarios.manager []
                  (State.mkBeaconHead 5 3 4) eq_refl)).
  exists 2%nat. reflexivity.
Defined.

(** ** GetHeadState: from the header's timestamp to a slot *)

Lemma Unix_whole_seconds (sec : Z) :
  Go.is_int64 (sec + time.unixToInternal) ->
  time.Unix sec 0 = time.mkTime (sec + time.unixToInternal) 0.
Proof.
  intros H. unfold time.Unix. simpl.
  rewrite wrap_i64_small by exact H. reflexivity.
Qed.

(** On whole-second times whose distance fits a [Duration], [Sub] is the
    exact difference, in nanoseconds. *)
Lemma Sub_whole_seconds (x y : Z) :
  Go.is_int64 x -> Go.is_int64 y ->
  - 9223372036 <= x - y <= 9223372036 ->
  time.Sub (time.mkTime x 0) (time.mkTime y 0) = (x - y) * time.Second.
Proof.
  unfold Go.is_int64, Go.two63. intros Hx Hy Hd.
  change (2 ^ 63) with 9223372036854775808 in *.
  assert (Hi : forall z, -9223372036854775808 <= z < 9223372036854775808 ->
                         Go.wrap_i64 z = z).
  { intros z Hz. apply wrap_i64_small. unfold Go.is_int64, Go.two63.
    change (2 ^ 63) with 9223372036854775808. exact Hz. }
  unfold time.Sub. cbn [time.ext time.nsec].
  rewrite (Hi (x - y)) by lia.
  unfold time.Second in *.
  rewrite (Hi ((x - y) * 1000000000)) by lia.
  rewrite Z.sub_diag, Z.add_0_r.
  rewrite (Hi ((x - y) * 1000000000)) by lia.
  unfold time.Add. cbn [time.ext time.nsec]. unfold time.Second.
  rewrite Z.quot_mul, Z.rem_mul by lia. simpl.
  unfold time.addSec. cbn [time.ext time.nsec].
  replace (y + (x - y)) with x by lia.
  rewrite (Hi x) by lia.
  assert (Hb : Bool.eqb (y <? x) (0 <? x - y) = true).
  { destruct (Z.ltb_spec y x), (Z.ltb_spec 0 (x - y)); try reflexivity; lia. }
  rewrite Hb. unfold time.Equal. cbn [time.ext time.nsec].
  rewrite !Z.eqb_refl. reflexivity.
Qed.

(** The slot of a timestamp at or after genesis. *)
Lemma headTargetSlot_from_genesis (neg : Z -> Z) (cfg : Eth2Config) (t : Z) :
  Eth2Config_typed cfg -> 0 < SecondsPerSlot cfg -> Go.is_uint64 t ->
  GenesisTime cfg <= t -> Scan.fitsDuration (GenesisTime cfg) t ->
  State.headTargetSlot neg cfg t = Some ((t - GenesisTime cfg) / SecondsPerSlot cfg).
Proof.
  intros Hty Hsps Ht Hge (Hrep & Hdur).
  destruct Hty as (_ & Hg & _).
  unfold Go.is_uint64, Go.two64, Go.two63 in *.
  change (time.maxDuration / time.Second) with 9223372036 in Hdur.
  change time.unixToInternal with 62135596800 in Hrep.
  change (2 ^ 63) with 9223372036854775808 in *.
  change (2 ^ 64) with 18446744073709551616 in *.
  assert (Hi : forall z, -9223372036854775808 <= z < 9223372036854775808 ->
                         Go.is_int64 z).
  { intros z Hz. unfold Go.is_int64, Go.two63.
    change (2 ^ 63) with 9223372036854775808. exact Hz. }
  unfold State.headTargetSlot, Go.int64_of_uint64.
  rewrite (wrap_i64_small t), (wrap_i64_small (GenesisTime cfg)) by (apply Hi; lia).
  rewrite !Unix_whole_seconds
    by (apply Hi; change time.unixToInternal with 62135596800; lia).
  rewrite Sub_whole_seconds
    by (try apply Hi; change time.unixToInternal with 62135596800; lia).
  replace (t + time.unixToInternal - (GenesisTime cfg + time.unixToInternal))
    with (t - GenesisTime cfg) by lia.
  unfold time.uint64_of_Seconds.
  rewrite Z.quot_mul by (unfold time.Second; lia).
  destruct (Z.ltb_spec (t - GenesisTime cfg) 0); [lia |].
  apply div64_pos, Hsps.
Qed.

(** The slot of a timestamp before genesis: the platform's conversion of
    the negative number of seconds, divided by the slot duration. *)
Lemma headTargetSlot_before_genesis (neg : Z -> Z) (cfg : Eth2Config) (t : Z) :
  Eth2Config_typed cfg -> 0 < SecondsPerSlot cfg -> Go.is_uint64 t ->
  t < GenesisTime cfg -> Scan.fitsDuration t (GenesisTime cfg) ->
  State.headTargetSlot neg cfg t
  = Some (neg (t - GenesisTime cfg) / SecondsPerSlot cfg).
Proof.
  intros Hty Hsps Ht Hlt (Hrep & Hdur).
  destruct Hty as (_ & Hg & _).
  unfold Go.is_uint64, Go.two64, Go.two63 in *.
  change (time.maxDuration / time.Second) with 9223372036 in Hdur.
  change time.unixToInternal with 62135596800 in Hrep.
  change (2 ^ 63) with 9223372036854775808 in *.
  change (2 ^ 64) with 18446744073709551616 in *.
  assert (Hi : forall z, -9223372036854775808 <= z < 9223372036854775808 ->
                         Go.is_int64 z).
  { intros z Hz. unfold Go.is_int64, Go.two63.
    change (2 ^ 63) with 9223372036854775808. exact Hz. }
  unfold State.headTargetSlot, Go.int64_of_uint64.
  rewrite (wrap_i64_small t), (wrap_i64_small (GenesisTime cfg)) by (apply Hi; lia).
  rewrite !Unix_whole_seconds
    by (apply Hi; change time.unixToInternal with 62135596800; lia).
  rewrite Sub_whole_seconds
    by (try apply Hi; change time.unixToInternal with 62135596800; lia).
  replace (t + time.unixToInternal - (GenesisTime cfg + time.unixToInternal))
    with (t - GenesisTime cfg) by lia.
  unfold time.uint64_of_Seconds.
  rewrite Z.quot_mul by (unfold time.Second; lia).
  destruct (Z.ltb_spec (t - GenesisTime cfg) 0); [| lia].
  apply div64_pos, Hsps.
Qed.

(** Beyond the range of [Duration] (about 292 years) [Sub] saturates,
    and so does the slot; with a zero slot duration the division
    panics. *)
Example headTargetSlot_saturates :
  State.headTargetSlot time.neg_wraps (mkEth2Config 0 0 1 32 32) 10000000000
  = Some 9223372036.
Proof. vm_compute. reflexivity. Qed.

Example headTargetSlot_zero_slot_duration :
  State.headTargetSlot time.neg_wraps (mkEth2Config 0 1000 0 32 0) 1600 = None.
Proof. vm_compute. reflexivity. Qed.

(** With a positive slot duration a slot is computed from any timestamp:
    no timestamp is rejected. *)
Lemma headTargetSlot_some (neg : Z -> Z) (cfg : Eth2Config) (t : Z) :
  0 < SecondsPerSlot cfg ->
  exists slot, State.headTargetSlot neg cfg t = Some slot.
Proof.
  intros Hsps. unfold State.headTargetSlot.
  rewrite div64_pos by exact Hsps. eexists. reflexivity.
Qed.

(** [getState] hands back what the snapshot builder answers. *)
Lemma getState_run (c : State.Clients) (m : State.NetworkStateManager)
  (slotNumber : Z) (w : list State.Event) :
  State.getState c m slotNumber w
  = (State.pkg_CreateNetworkState c (Scan.builds w) (State.log m) slotNumber
       (State.BeaconConfig m),
     w ++ [State.CallCreateNetworkState slotNumber (State.BeaconConfig m)]).
Proof.
  unfold State.getState, State.CreateNetworkState,
    Eff.bind, Eff.calls, Eff.emit, Eff.ret.
  fold (Scan.builds w).
  destruct (State.pkg_CreateNetworkState c (Scan.builds w) (State.log m)
              slotNumber (State.BeaconConfig m)); reflexivity.
Qed.

Lemma builds_after_header (w : list State.Event) :
  Scan.builds (w ++ [State.CallHeaderByNumber]) = Scan.builds w.
Proof.
  unfold Scan.builds. rewrite filter_app, length_app. simpl. apply Nat.add_0_r.
Qed.

(** [GetHeadState] after a successful header fetch. *)
Lemma GetHeadState_header_ok (c : State.Clients) (m : State.NetworkStateManager)
  (w : list State.Event) (header : State.Header) (slot : Z) :
  State.ec_HeaderByNumber c (Scan.headers w) = Go.Ok header ->
  State.headTargetSlot (State.float_neg c) (State.BeaconConfig m) (State.Time header)
  = Some slot ->
  State.GetHeadState c m w
  = (Some (State.pkg_CreateNetworkState c (Scan.builds w) (State.log m) slot
             (State.BeaconConfig m)),
     w ++ [State.CallHeaderByNumber;
           State.CallCreateNetworkState slot (State.BeaconConfig m)]).
Proof.
  intros Hh Hs.
  unfold State.GetHeadState, State.HeaderByNumber.
  unfold Eff.bind at 1 2 3. unfold Eff.calls, Eff.emit at 1, Eff.ret at 1.
  fold (Scan.headers w). rewrite Hh, Hs.
  unfold Eff.bind. rewrite getState_run, builds_after_header.
  unfold Eff.ret. rewrite <- app_assoc. reflexivity.
Qed.

(** [GetHeadState] after a failed header fetch. *)
Lemma GetHeadState_header_err (c : State.Clients) (m : State.NetworkStateManager)
  (w : list State.Event) (err : Go.error) :
  State.ec_HeaderByNumber c (Scan.headers w) = Go.Err err ->
  State.GetHeadState c m w
  = (Some (Go.Err (Go.Errorf_w "error getting latest EL block: " err)),
     w ++ [State.CallHeaderByNumber]).
Proof.
  intros Hh.
  unfold State.GetHeadState, State.HeaderByNumber,
    Eff.bind, Eff.calls, Eff.emit, Eff.ret.
  fold (Scan.headers w). rewrite Hh. reflexivity.
Qed.

(** C4, amended.  For a header fetched from the execution client whose
    timestamp [t] is at or after the genesis time of the manager's
    configuration, at most 9223372036 seconds after it (the range of
    [time.Duration]) and below 2^63 - 62135596800 (the range of
    [time.Unix]), the slot duration being positive, [GetHeadState] resolves the slot
    [floor((t - GenesisTime) / SecondsPerSlot)] and hands the
    construction of the snapshot to [getState] for that slot, with the
    stored configuration: it returns what [GetStateForSlot] returns
    there. *)
Theorem head_state_resolves_slot
  (c : State.Clients) (m : State.NetworkStateManager) (w : list State.Event)
  (header : State.Header) :
  State.ec_HeaderByNumber c (Scan.headers w) = Go.Ok header ->
  Eth2Config_typed (State.BeaconConfig m) ->
  0 < SecondsPerSlot (State.BeaconConfig m) ->
  Go.is_uint64 (State.Time header) ->
  GenesisTime (State.BeaconConfig m) <= State.Time header ->
  Scan.fitsDuration (GenesisTime (State.BeaconConfig m)) (State.Time header) ->
  let slot := (State.Time header - GenesisTime (State.BeaconConfig m))
              / SecondsPerSlot (State.BeaconConfig m) in
  State.headTargetSlot (State.float_neg c) (State.BeaconConfig m) (State.Time header)
  = Some slot
  /\ State.GetHeadState c m w
     = (let (r, w') := State.GetStateForSlot c m slot (w ++ [State.CallHeaderByNumber])
        in (Some r, w'))
  /\ State.GetHeadState c m w
     = (Some (State.pkg_CreateNetworkState c (Scan.builds w) (State.log m) slot
                (State.BeaconConfig m)),
        w ++ [State.CallHeaderByNumber;
              State.CallCreateNetworkState slot (State.BeaconConfig m)]).
Proof.
  intros Hh Hty Hsps Ht Hge Hfit slot.
  pose proof (headTargetSlot_from_genesis (State.float_neg c) _ _
                Hty Hsps Ht Hge Hfit) as Hslot.
  fold slot in Hslot.
  split; [exact Hslot |].
  rewrite (GetHeadState_header_ok c m w header slot Hh Hslot).
  split; [| reflexivity].
  unfold State.GetStateForSlot.
  rewrite getState_run, builds_after_header, <- app_assoc. reflexivity.
Qed.

(** Scenario A of the specification: genesis at 1000, 12-second slots,
    a header at time 1600. *)
Lemma head_state_resolves_slot_witness :
  State.headTargetSlot time.neg_wraps Scenarios.config 1600 = Some 50
  /\ State.GetHeadState Scenarios.clientsB Scenarios.manager []
     = (Some (Go.Ok (State.mkNetworkState 0 50 Scenarios.config
                       (State.mkNetworkDetails 0 0))),
        [State.CallHeaderByNumber;
         State.CallCreateNetworkState 50 Scenarios.config]).
Proof.
  assert (H := head_state_resolves_slot Scenarios.clientsB Scenarios.manager []
                 (State.mkHeader 77 1600) eq_refl).
  cbv zeta in H.
  destruct H as (H1 & _ & H3).
  - unfold Eth2Config_typed, Go.is_uint64, Go.two64; simpl; lia.
  - simpl; lia.
  - unfold Go.is_uint64, Go.two64; simpl; lia.
  - simpl; lia.
  - unfold Scan.fitsDuration; simpl. split; [reflexivity |].
    intros Hc; discriminate Hc.
  - split; [exact H1 | exact H3].
Defined.

(** C4, refuted.  A header stamped 20000000000, with genesis at 1000 and
    12-second slots, is at or after genesis, and the quotient
    [(t - GenesisTime) / SecondsPerSlot] is 1666666583; the time since
    genesis does not fit a [time.Duration], [Sub] saturates, and the
    snapshot is built for slot 768614336. *)
Lemma head_state_slot_saturates_far_from_genesis :
  GenesisTime Scenarios.config <= 20000000000
  /\ (20000000000 - GenesisTime Scenarios.config)
     / SecondsPerSlot Scenarios.config = 1666666583
  /\ State.GetHeadState Scenarios2.clientsFar Scenarios.manager []
     = (Some (Go.Ok (State.mkNetworkState 0 768614336 Scenarios.config
                       (State.mkNetworkDetails 0 0))),
        [State.CallHeaderByNumber;
         State.CallCreateNetworkState 768614336 Scenarios.config]).
Proof.
  split; [intros Hc; discriminate Hc |].
  split; [reflexivity |].
  vm_compute. reflexivity.
Qed.

(** C5, refuted.  With a header one second before genesis the function
    does not fail: it computes a slot from the negative elapsed time
    (the largest [uint64] divided by 12 where the conversion wraps, 0
    where it saturates), asks the builder for a snapshot at that slot
    and returns it. *)
Lemma head_state_accepts_pre_genesis_header :
  State.GetHeadState (Scenarios.clientsEarly time.neg_wraps) Scenarios.manager []
  = (Some (Go.Ok (State.mkNetworkState 0 1537228672809129301 Scenarios.config
                    (State.mkNetworkDetails 0 0))),
     [State.CallHeaderByNumber;
      State.CallCreateNetworkState 1537228672809129301 Scenarios.config])
  /\ State.GetHeadState (Scenarios.clientsEarly time.neg_saturates) Scenarios.manager []
     = (Some (Go.Ok (State.mkNetworkState 0 0 Scenarios.config
                       (State.mkNetworkDetails 0 0))),
        [State.CallHeaderByNumber;
         State.CallCreateNetworkState 0 Scenarios.config]).
Proof. split; vm_compute; reflexivity. Qed.

(** [GetHeadState] with a zero slot duration: the division panics. *)
Lemma GetHeadState_zero_slot_duration (c : State.Clients)
  (m : State.NetworkStateManager) (w : list State.Event) (header : State.Header) :
  State.ec_HeaderByNumber c (Scan.headers w) = Go.Ok header ->
  SecondsPerSlot (State.BeaconConfig m) = 0 ->
  State.GetHeadState c m w = (None, w ++ [State.CallHeaderByNumber]).
Proof.
  intros Hh Hz.
  unfold State.GetHeadState, State.HeaderByNumber,
    Eff.bind, Eff.calls, Eff.emit, Eff.ret.
  fold (Scan.headers w). rewrite Hh.
  unfold State.headTargetSlot. rewrite Hz, div64_zero. reflexivity.
Qed.

(** C5, amended.  [GetHeadState] fails when the execution client cannot
    deliver the latest header: it returns that error, wrapped, and the
    builder is not called.  The timestamp of a delivered header is not
    checked: with a positive slot duration a slot is computed from any
    timestamp and the builder is called for it; for a timestamp before
    genesis (within the range of [time.Duration]) that slot is the
    platform's conversion of the negative number of seconds, divided by
    the slot duration. *)
Theorem head_state_fails_only_on_header_fetch
  (c : State.Clients) (m : State.NetworkStateManager) (w : list State.Event) :
  (forall err,
     State.ec_HeaderByNumber c (Scan.headers w) = Go.Err err ->
     State.GetHeadState c m w
     = (Some (Go.Err (Go.Errorf_w "error getting latest EL block: " err)),
        w ++ [State.CallHeaderByNumber]))
  /\ (forall header,
        State.ec_HeaderByNumber c (Scan.headers w) = Go.Ok header ->
        0 < SecondsPerSlot (State.BeaconConfig m) ->
        exists slot,
          State.headTargetSlot (State.float_neg c) (State.BeaconConfig m)
            (State.Time header) = Some slot
          /\ State.GetHeadState c m w
             = (Some (State.pkg_CreateNetworkState c (Scan.builds w) (State.log m)
                        slot (State.BeaconConfig m)),
                w ++ [State.CallHeaderByNumber;
                      State.CallCreateNetworkState slot (State.BeaconConfig m)])
          /\ (Eth2Config_typed (State.BeaconConfig m) ->
              Go.is_uint64 (State.Time header) ->
              State.Time header < GenesisTime (State.BeaconConfig m) ->
              Scan.fitsDuration (State.Time header) (GenesisTime (State.BeaconConfig m)) ->
              slot = State.float_neg c
                       (State.Time header - GenesisTime (State.BeaconConfig m))
                     / SecondsPerSlot (State.BeaconConfig m))).
Proof.
  split.
  - intros err Hh. apply GetHeadState_header_err, Hh.
  - intros header Hh Hsps.
    destruct (headTargetSlot_some (State.float_neg c) (State.BeaconConfig m)
                (State.Time header) Hsps) as (slot & Hslot).
    exists slot. split; [exact Hslot |].
    split; [apply (GetHeadState_header_ok c m w header slot Hh Hslot) |].
    intros Hty Ht Hlt Hfit.
    rewrite (headTargetSlot_before_genesis _ _ _ Hty Hsps Ht Hlt Hfit) in Hslot.
    congruence.
Qed.

(** The execution client refuses the connection. *)
Lemma head_state_fails_only_on_header_fetch_witness :
  State.GetHeadState Scenarios.clientsDown Scenarios.manager []
  = (Some (Go.Err (Go.Errorf_w "error getting latest EL block: " Scenarios.refused)),
     [State.CallHeaderByNumber]).
Proof.
  exact (proj1 (head_state_fails_only_on_header_fetch
                  Scenarios.clientsDown Scenarios.manager [])
           Scenarios.refused eq_refl).
Defined.

(** ** The configuration is fetched once *)

Lemma configFetches_app (w1 w2 : list State.Event) :
  Scan.configFetches (w1 ++ w2)
  = (Scan.configFetches w1 + Scan.configFetches w2)%nat.
Proof. unfold Scan.configFetches. rewrite filter_app, length_app. reflexivity. Qed.

Lemma configFetches_skipEvents (m : State.NetworkStateManager) (slot : Z) :
  Scan.configFetches (Scan.skipEvents m slot) = O.
Proof. unfold Scan.skipEvents. destruct (State.log m); reflexivity. Qed.

(** A turn of the loop fetches no configuration. *)
Lemma loopBody_configFetches (c : State.Clients) (m : State.NetworkStateManager)
  (targetSlot : Z) (w : list State.Event) :
  Scan.configFetches (snd (State.loopBody c m targetSlot w)) = Scan.configFetches w.
Proof.
  destruct (Scan.is_missing
              (State.bc_GetBeaconBlock c (Scan.probes w) (Go.Sprint targetSlot))) eqn:H.
  - rewrite loopBody_missing by exact H. cbn [snd].
    rewrite configFetches_app, configFetches_skipEvents. apply Nat.add_0_r.
  - rewrite loopBody_answer by exact H. cbn [snd].
    rewrite configFetches_app. apply Nat.add_0_r.
Qed.

Lemma loop_configFetches (c : State.Clients) (m : State.NetworkStateManager)
  (fuel : nat) :
  forall (targetSlot : Z) (w : list State.Event),
    Scan.configFetches (snd (State.loop fuel c m targetSlot w)) = Scan.configFetches w.
Proof.
  induction fuel as [|fuel IH]; intros targetSlot w; [reflexivity |].
  cbn [State.loop]. unfold Eff.bind.
  pose proof (loopBody_configFetches c m targetSlot w) as Hb.
  destruct (State.loopBody c m targetSlot w) as [[t' | r] w1]; cbn [snd] in Hb.
  - rewrite IH. exact Hb.
  - exact Hb.
Qed.

Lemma GetLatestFinalizedBeaconBlock_configFetches (c : State.Clients)
  (m : State.NetworkStateManager) (fuel : nat) (w : list State.Event) :
  Scan.configFetches (snd (State.GetLatestFinalizedBeaconBlock fuel c m w))
  = Scan.configFetches w.
Proof.
  unfold State.GetLatestFinalizedBeaconBlock, State.GetBeaconHead.
  unfold Eff.bind at 1 2 3. unfold Eff.calls, Eff.emit, Eff.ret at 1.
  destruct (State.bc_GetBeaconHead c _) as [head | err].
  - rewrite loop_configFetches, configFetches_app. apply Nat.add_0_r.
  - unfold Eff.ret. cbn [snd]. rewrite configFetches_app. apply Nat.add_0_r.
Qed.

Lemma GetHeadState_configFetches (c : State.Clients)
  (m : State.NetworkStateManager) (w : list State.Event) :
  Scan.configFetches (snd (State.GetHeadState c m w)) = Scan.configFetches w.
Proof.
  destruct (State.ec_HeaderByNumber c (Scan.headers w)) as [header | err] eqn:Hh.
  - destruct (State.headTargetSlot (State.float_neg c) (State.BeaconConfig m)
                (State.Time header)) as [slot |] eqn:Hs.
    + rewrite (GetHeadState_header_ok c m w header slot Hh Hs). cbn [snd].
      rewrite configFetches_app. apply Nat.add_0_r.
    + unfold State.GetHeadState, State.HeaderByNumber,
        Eff.bind, Eff.calls, Eff.emit, Eff.ret.
      fold (Scan.headers w). rewrite Hh, Hs. cbn [snd].
      rewrite configFetches_app. apply Nat.add_0_r.
  - rewrite (GetHeadState_header_err c m w err Hh). cbn [snd].
    rewrite configFetches_app. apply Nat.add_0_r.
Qed.

(** The loop does not look at the client's source of configurations. *)
Lemma loop_ignores_GetEth2Config (c : State.Clients)
  (g : nat -> Go.result Eth2Config) (m : State.NetworkStateManager) (fuel : nat) :
  forall (targetSlot : Z) (w : list State.Event),
    State.loop fuel (Scan.with_GetEth2Config c g) m targetSlot w
    = State.loop fuel c m targetSlot w.
Proof.
  induction fuel as [|fuel IH]; intros targetSlot w; [reflexivity |].
  cbn [State.loop]. unfold Eff.bind.
  change (State.loopBody (Scan.with_GetEth2Config c g) m targetSlot w)
    with (State.loopBody c m targetSlot w).
  destruct (State.loopBody c m targetSlot w) as [[t' | r] w1].
  - apply IH.
  - reflexivity.
Qed.

(** ** The ODAO collector *)

Section CollectorFacts.

Import Go Collectors Gauges.

Variable env : Env.

(** A goroutine makes its one query, and leaves the prices gauge and
    the effective-stake gauge equal if they were. *)
Lemma runGoroutine_run (g : Goroutine) (v : Floats) (w : list Event) :
  snd (runGoroutine env g v w) = w ++ [queryOf g]
  /\ (pricesBlockFloat v = effectiveRplStakeBlockFloat v ->
      pricesBlockFloat (fst (fst (runGoroutine env g v w)))
      = effectiveRplStakeBlockFloat (fst (fst (runGoroutine env g v w)))).
Proof.
  destruct g; unfold runGoroutine, Eff.bind, Eff.emit, Eff.ret; cbn [queryOf].
  - destruct (rp_BlockNumber env); split; auto.
  - destruct (network_GetPricesBlock env); split; auto.
  - destruct (network_GetLatestReportablePricesBlock env); split; auto.
Qed.

Lemma runGroup_run (sched : list Goroutine) :
  forall (v : Floats) (first : option error) (w : list Event),
    snd (runGroup env sched v first w) = w ++ map queryOf sched
    /\ (pricesBlockFloat v = effectiveRplStakeBlockFloat v ->
        pricesBlockFloat (fst (fst (runGroup env sched v first w)))
        = effectiveRplStakeBlockFloat (fst (fst (runGroup env sched v first w)))).
Proof.
  induction sched as [|g sched IH]; intros v first w.
  - simpl. unfold Eff.ret. rewrite app_nil_r. split; auto.
  - cbn [runGroup map]. unfold Eff.bind.
    destruct (runGoroutine_run g v w) as (Ht & Hinv).
    destruct (runGoroutine env g v w) as [[v' err] w'].
    cbn [fst snd] in Ht, Hinv. subst w'.
    destruct (IH v' (match first with Some _ => first | None => err end)
                (w ++ [queryOf g])) as (Ht' & Hinv').
    split.
    + rewrite Ht', <- app_assoc. reflexivity.
    + intros Heq. apply Hinv', Hinv, Heq.
Qed.

Lemma sends_app (w1 w2 : list Event) : sends (w1 ++ w2) = sends w1 ++ sends w2.
Proof. apply filter_app. Qed.

Lemma queries_app (w1 w2 : list Event) : queries (w1 ++ w2) = queries w1 ++ queries w2.
Proof. apply filter_app. Qed.

Lemma sends_queryOf (sched : list Goroutine) : sends (map queryOf sched) = [].
Proof. induction sched as [|[] sched IH]; simpl; auto. Qed.

Lemma queries_queryOf (sched : list Goroutine) :
  queries (map queryOf sched) = map queryOf sched.
Proof.
  induction sched as [|g sched IH]; [reflexivity |].
  destruct g; cbn [map queryOf queries filter is_query];
    unfold queries in IH; rewrite IH; reflexivity.
Qed.

Lemma sendAll_run (v : Floats) (w : list Event) :
  sendAll v w = (tt, w ++ gauges v).
Proof.
  unfold sendAll, Eff.bind, Eff.emit, gauges.
  rewrite <- !app_assoc. reflexivity.
Qed.

(** The cached path: the four gauges of the snapshot and nothing else. *)
Lemma collectImpl_Atlas_run (state : State.NetworkState) (w : list Event) :
  collectImpl_Atlas state w = (tt, w ++ gauges (ofState state)).
Proof. unfold collectImpl_Atlas. apply sendAll_run. Qed.

(** The legacy path: the queries of all goroutines, then either one
    error line or four gauges whose prices and effective-stake values
    agree. *)
Lemma collectImpl_Legacy_run (w : list Event) :
  (exists line,
     snd (collectImpl_Legacy env w)
     = w ++ map queryOf (schedule env) ++ [Printf line])
  \/ (exists v,
        pricesBlockFloat v = effectiveRplStakeBlockFloat v
        /\ snd (collectImpl_Legacy env w)
           = w ++ map queryOf (schedule env) ++ gauges v).
Proof.
  unfold collectImpl_Legacy, Eff.bind.
  destruct (runGroup_run (schedule env) initFloats None w) as (Ht & Hinv).
  destruct (runGroup env (schedule env) initFloats None w) as [[v err] w'].
  cbn [fst snd] in Ht, Hinv. subst w'.
  destruct err as [e |].
  - left. eexists. unfold logError, Eff.emit. cbn [snd].
    rewrite <- app_assoc. reflexivity.
  - right. exists v. split; [apply Hinv; reflexivity |].
    rewrite sendAll_run. cbn [snd]. rewrite <- app_assoc. reflexivity.
Qed.

(** [Collect] is one of the two paths, after the look into the cache. *)
Lemma Collect_run (w : list Event) :
  Collect env w
  = match stateLocker_GetState env with
    | None => collectImpl_Legacy env (w ++ [CallGetState])
    | Some state => collectImpl_Atlas state (w ++ [CallGetState])
    end.
Proof.
  unfold Collect, GetState, Eff.bind, Eff.emit, Eff.ret.
  destruct (stateLocker_GetState env); reflexivity.
Qed.

End CollectorFacts.

(** C8.  [Collect] looks into the state cache once.  When it holds no
    snapshot the collection is the legacy one, and its direct queries
    are those of the three goroutines; when it holds a snapshot the
    collection is the cached one: it sends the four gauges read off the
    snapshot and makes no direct query, whatever the execution client
    and the contracts would have answered.  With the three goroutines
    scheduled, a direct query is made exactly when the cache is empty. *)
Theorem collect_path_follows_cache (env : Collectors.Env) (w : list Collectors.Event) :
  (Collectors.stateLocker_GetState env = None ->
     Collectors.Collect env w
     = Collectors.collectImpl_Legacy env (w ++ [Collectors.CallGetState])
     /\ Gauges.queries (snd (Collectors.Collect env w))
        = Gauges.queries w ++ map Gauges.queryOf (Collectors.schedule env))
  /\ (forall state,
        Collectors.stateLocker_GetState env = Some state ->
        Collectors.Collect env w
        = Collectors.collectImpl_Atlas state (w ++ [Collectors.CallGetState])
        /\ snd (Collectors.Collect env w)
           = w ++ Collectors.CallGetState :: Gauges.gauges (Gauges.ofState state)
        /\ Gauges.queries (snd (Collectors.Collect env w)) = Gauges.queries w
        /\ forall env',
             Collectors.stateLocker_GetState env' = Some state ->
             Collectors.Collect env' w = Collectors.Collect env w)
  /\ (In (Collectors.schedule env) Collectors.schedules ->
      (Gauges.queries (snd (Collectors.Collect env [])) <> []
       <-> Collectors.stateLocker_GetState env = None)).
Proof.
  split; [| split].
  - intros Hnone. rewrite Collect_run, Hnone. split; [reflexivity |].
    destruct (collectImpl_Legacy_run env (w ++ [Collectors.CallGetState]))
      as [(line & Ht) | (v & _ & Ht)]; rewrite Ht;
      rewrite !queries_app, queries_queryOf; simpl;
      rewrite !app_nil_r; reflexivity.
  - intros state Hsome. rewrite Collect_run, Hsome.
    rewrite collectImpl_Atlas_run. cbn [snd].
    split; [reflexivity |].
    split; [rewrite <- app_assoc; reflexivity |].
    split.
    + rewrite !queries_app. simpl. rewrite !app_nil_r. reflexivity.
    + intros env' Hsome'. rewrite Collect_run, Hsome', collectImpl_Atlas_run.
      reflexivity.
  - intros Hsched. rewrite Collect_run.
    destruct (Collectors.stateLocker_GetState env) as [state |].
    + rewrite collectImpl_Atlas_run. simpl.
      split; [intros H; exfalso; apply H; reflexivity | discriminate].
    + split; [reflexivity |]. intros _.
      destruct (collectImpl_Legacy_run env ([] ++ [Collectors.CallGetState]))
        as [(line & Ht) | (v & _ & Ht)]; rewrite Ht;
        rewrite !queries_app, queries_queryOf; simpl;
        (destruct Hsched as [<- | [<- | [<- | [<- | [<- | [<- | []]]]]]];
         discriminate).
Qed.

(** With a snapshot in the cache the gauges are those of the snapshot. *)
Lemma collect_path_follows_cache_witness :
  snd (Collectors.Collect Scenarios.envCached [])
  = [Collectors.CallGetState;
     Collectors.Send Collectors.currentEth1Block 17000000;
     Collectors.Send Collectors.pricesBlock 16999000;
     Collectors.Send Collectors.effectiveRplStakeBlock 16999000;
     Collectors.Send Collectors.latestReportableBlock 16999900].
Proof.
  exact (proj1 (proj2 (proj1 (proj2
           (collect_path_follows_cache Scenarios.envCached []))
           Scenarios.snapshot eq_refl))).
Defined.

(** The gauges of a legacy collection whose three queries succeed. *)
Lemma legacy_success (env : Collectors.Env) (w : list Collectors.Event) (a p r : Z) :
  In (Collectors.schedule env) Collectors.schedules ->
  Collectors.rp_BlockNumber env = Go.Ok a ->
  Collectors.network_GetPricesBlock env = Go.Ok p ->
  Collectors.network_GetLatestReportablePricesBlock env = Go.Ok r ->
  Gauges.sends (snd (Collectors.collectImpl_Legacy env w))
  = Gauges.sends w
    ++ Gauges.gauges
         (Collectors.mkFloats (Go.float64_of_uint64 a) (Go.float64_of_uint64 p)
            (Go.float64_of_uint64 p)
            (Go.float64_of_uint64 (Collectors.big_Uint64 r))).
Proof.
  intros Hsched Ha Hp Hr.
  destruct env as [cached bn pb lr sched].
  cbn [Collectors.schedule Collectors.rp_BlockNumber
       Collectors.network_GetPricesBlock
       Collectors.network_GetLatestReportablePricesBlock] in *.
  subst bn pb lr.
  unfold Collectors.collectImpl_Legacy, Eff.bind.
  cbn [Collectors.schedule].
  destruct Hsched as [<- | [<- | [<- | [<- | [<- | [<- | []]]]]]];
    cbn [Collectors.runGroup Collectors.runGoroutine Collectors.rp_BlockNumber
         Collectors.network_GetPricesBlock
         Collectors.network_GetLatestReportablePricesBlock];
    unfold Eff.bind, Eff.emit, Eff.ret;
    cbn [Collectors.blockNumberFloat Collectors.pricesBlockFloat
         Collectors.effectiveRplStakeBlockFloat
         Collectors.latestReportableBlockFloat Collectors.initFloats];
    rewrite sendAll_run; cbn [snd];
    rewrite !sends_app; simpl; rewrite ?app_nil_r; reflexivity.
Qed.

(** C10.  The gauges sent by one collection are either none (the legacy
    path after a failed query) or the four gauges in order, the value of
    the effective-RPL-stake-block gauge being the value of the
    prices-block gauge; so any value sent for the one equals any value
    sent for the other.  A collection from the cache always sends them,
    with the prices block of the snapshot; a legacy collection whose
    three queries succeed sends them, with the prices block the
    contract returned. *)
Theorem effective_stake_gauge_equals_prices_gauge (env : Collectors.Env) :
  let out := Gauges.sends (snd (Collectors.Collect env [])) in
  (out = []
   \/ exists v,
        Collectors.pricesBlockFloat v = Collectors.effectiveRplStakeBlockFloat v
        /\ out = Gauges.gauges v)
  /\ (forall v1 v2,
        In (Collectors.Send Collectors.effectiveRplStakeBlock v1) out ->
        In (Collectors.Send Collectors.pricesBlock v2) out ->
        v1 = v2)
  /\ (forall state,
        Collectors.stateLocker_GetState env = Some state ->
        out = Gauges.gauges (Gauges.ofState state))
  /\ (forall a p r,
        Collectors.stateLocker_GetState env = None ->
        In (Collectors.schedule env) Collectors.schedules ->
        Collectors.rp_BlockNumber env = Go.Ok a ->
        Collectors.network_GetPricesBlock env = Go.Ok p ->
        Collectors.network_GetLatestReportablePricesBlock env = Go.Ok r ->
        out = Gauges.gauges
                (Collectors.mkFloats (Go.float64_of_uint64 a)
                   (Go.float64_of_uint64 p) (Go.float64_of_uint64 p)
                   (Go.float64_of_uint64 (Collectors.big_Uint64 r)))).
Proof.
  intros out.
  assert (Hshape : out = []
    \/ exists v,
         Collectors.pricesBlockFloat v = Collectors.effectiveRplStakeBlockFloat v
         /\ out = Gauges.gauges v).
  { unfold out. rewrite Collect_run.
    destruct (Collectors.stateLocker_GetState env) as [state |].
    - right. exists (Gauges.ofState state). split; [reflexivity |].
      rewrite collectImpl_Atlas_run. reflexivity.
    - destruct (collectImpl_Legacy_run env ([] ++ [Collectors.CallGetState]))
        as [(line & Ht) | (v & Hv & Ht)]; rewrite Ht.
      + left. rewrite !sends_app, sends_queryOf. reflexivity.
      + right. exists v. split; [exact Hv |].
        rewrite !sends_app, sends_queryOf. reflexivity. }
  split; [exact Hshape |].
  split.
  { intros v1 v2 H1 H2.
    destruct Hshape as [Hnil | (v & Hv & Hout)].
    - rewrite Hnil in H1. destruct H1.
    - rewrite Hout in H1, H2. unfold Gauges.gauges in H1, H2.
      simpl in H1, H2.
      destruct H1 as [H1 | [H1 | [H1 | [H1 | []]]]]; try discriminate H1.
      destruct H2 as [H2 | [H2 | [H2 | [H2 | []]]]]; try discriminate H2.
      congruence. }
  split.
  { intros state Hsome. unfold out.
    rewrite Collect_run, Hsome, collectImpl_Atlas_run. reflexivity. }
  intros a p r Hnone Hsched Ha Hp Hr. unfold out.
  rewrite Collect_run, Hnone.
  rewrite (legacy_success env _ a p r Hsched Ha Hp Hr). reflexivity.
Qed.

(** A legacy collection whose three queries succeed. *)
Lemma effective_stake_gauge_equals_prices_gauge_witness :
  Gauges.sends (snd (Collectors.Collect Scenarios.envLegacy []))
  = [Collectors.Send Collectors.currentEth1Block 17000005;
     Collectors.Send Collectors.pricesBlock 16999000;
     Collectors.Send Collectors.effectiveRplStakeBlock 16999000;
     Collectors.Send Collectors.latestReportableBlock 16999900].
Proof.
  refine (proj2 (proj2 (proj2
    (effective_stake_gauge_equals_prices_gauge Scenarios.envLegacy)))
    17000005 16999000 16999900 eq_refl _ eq_refl eq_refl eq_refl).
  simpl. tauto.
Defined.

(** * Further properties *)

(** ** watchtower.epochAt *)

(** X1.  [epochAt] panics exactly when the configuration has a zero
    [SecondsPerEpoch]; for every other configuration it returns an epoch
    at every time. *)
Theorem epochAt_panics_iff_zero_divisor (c : Eth2Config) (t : Z) :
  Watchtower.epochAt c t = None <-> SecondsPerEpoch c = 0.
Proof.
  unfold Watchtower.epochAt, Go.div64.
  destruct (Z.eqb_spec (SecondsPerEpoch c) 0) as [Hz | Hnz].
  - split; [intros _; exact Hz | reflexivity].
  - split; [discriminate | intros Hz; contradiction].
Qed.

(** The epoch of a time at or after genesis, when the sum fits. *)
Lemma epochAt_exact (c : Eth2Config) (t : Z) :
  Eth2Config_typed c -> 0 < SecondsPerEpoch c ->
  Go.is_uint64 t -> GenesisTime c <= t ->
  GenesisEpoch c + (t - GenesisTime c) / SecondsPerEpoch c < Go.two64 ->
  Watchtower.epochAt c t
  = Some (GenesisEpoch c + (t - GenesisTime c) / SecondsPerEpoch c).
Proof.
  intros (Hge0 & Hgt & _) Hspe Ht Hge Hfit.
  unfold Watchtower.epochAt.
  rewrite div64_pos by exact Hspe.
  rewrite sub64_no_borrow by assumption.
  unfold Go.add64. rewrite wrap64_small; [reflexivity |].
  unfold Go.is_uint64 in *. split; [| exact Hfit].
  assert (0 <= (t - GenesisTime c) / SecondsPerEpoch c)
    by (apply Z.div_pos; lia).
  lia.
Qed.

(** X2.  From genesis on the epoch never decreases with time, as long as
    the later epoch fits 64 bits. *)
Theorem epochAt_monotone (c : Eth2Config) (t1 t2 : Z) :
  Eth2Config_typed c -> 0 < SecondsPerEpoch c ->
  Go.is_uint64 t1 -> Go.is_uint64 t2 ->
  GenesisTime c <= t1 -> t1 <= t2 ->
  GenesisEpoch c + (t2 - GenesisTime c) / SecondsPerEpoch c < Go.two64 ->
  exists e1 e2,
    Watchtower.epochAt c t1 = Some e1
    /\ Watchtower.epochAt c t2 = Some e2
    /\ e1 <= e2.
Proof.
  intros Hty Hspe Ht1 Ht2 Hge Hle Hfit.
  assert (Hq : (t1 - GenesisTime c) / SecondsPerEpoch c
               <= (t2 - GenesisTime c) / SecondsPerEpoch c)
    by (apply Z.div_le_mono; lia).
  exists (GenesisEpoch c + (t1 - GenesisTime c) / SecondsPerEpoch c),
         (GenesisEpoch c + (t2 - GenesisTime c) / SecondsPerEpoch c).
  split; [apply epochAt_exact; try assumption; lia |].
  split; [apply epochAt_exact; try assumption; lia |].
  lia.
Qed.

Lemma epochAt_monotone_witness :
  exists e1 e2,
    Watchtower.epochAt Scenarios.config 1383 = Some e1
    /\ Watchtower.epochAt Scenarios.config 1384 = Some e2
    /\ e1 <= e2.
Proof.
  apply epochAt_monotone.
  - unfold Eth2Config_typed, Go.is_uint64, Go.two64; simpl; lia.
  - simpl; lia.
  - unfold Go.is_uint64, Go.two64; lia.
  - unfold Go.is_uint64, Go.two64; lia.
  - simpl; lia.
  - lia.
  - reflexivity.
Defined.



(** X4.  Time is not ordered across genesis: the epoch returned for a
    time before genesis is at least the epoch returned for any time at
    or after genesis (when the sum fits 64 bits). *)
Theorem epochAt_before_genesis_not_earlier (c : Eth2Config) (t t' : Z) :
  Eth2Config_typed c -> 0 < SecondsPerEpoch c ->
  Go.is_uint64 t -> Go.is_uint64 t' ->
  t < GenesisTime c -> GenesisTime c <= t' ->
  GenesisEpoch c + (Go.two64 + t - GenesisTime c) / SecondsPerEpoch c < Go.two64 ->
  exists e e',
    Watchtower.epochAt c t = Some e
    /\ Watchtower.epochAt c t' = Some e'
    /\ e' <= e.
Proof.
  intros Hty Hspe Ht Ht' Hlt Hge Hfit.
  assert (Hq : (t' - GenesisTime c) / SecondsPerEpoch c
               <= (Go.two64 + t - GenesisTime c) / SecondsPerEpoch c).
  { apply Z.div_le_mono; [exact Hspe |]. unfold Go.is_uint64 in *. lia. }
  exists (GenesisEpoch c + (Go.two64 + t - GenesisTime c) / SecondsPerEpoch c),
         (GenesisEpoch c + (t' - GenesisTime c) / SecondsPerEpoch c).
  split; [| split; [apply epochAt_exact; try assumption; lia | lia]].
  destruct Hty as (Hge0 & Hgt & _).
  unfold Watchtower.epochAt.
  rewrite div64_pos by exact Hspe.
  rewrite sub64_borrow by assumption.
  unfold Go.add64. rewrite wrap64_small; [reflexivity |].
  unfold Go.is_uint64 in *. split; [| exact Hfit].
  assert (0 <= (Go.two64 + t - GenesisTime c) / SecondsPerEpoch c)
    by (apply Z.div_pos; lia).
  lia.
Qed.

Lemma epochAt_before_genesis_not_earlier_witness :
  exists e e',
    Watchtower.epochAt Scenarios.config 999 = Some e
    /\ Watchtower.epochAt Scenarios.config 1600000000 = Some e'
    /\ e' <= e.
Proof.
  apply epochAt_before_genesis_not_earlier.
  - unfold Eth2Config_typed, Go.is_uint64, Go.two64; simpl; lia.
  - simpl; lia.
  - unfold Go.is_uint64, Go.two64; lia.
  - unfold Go.is_uint64, Go.two64; lia.
  - simpl; lia.
  - simpl; lia.
  - reflexivity.
Defined.

(** ** The finalized-block scan *)

(** X5.  When nothing overflows, the first slot probed is the last slot
    of the finalized epoch: it belongs to that epoch and the slot after
    it opens the next one. *)
Theorem finalizedTargetSlot_ends_epoch (head : State.BeaconHead) (cfg : Eth2Config) :
  0 <= State.FinalizedEpoch head -> 0 < SlotsPerEpoch cfg ->
  (State.FinalizedEpoch head + 1) * SlotsPerEpoch cfg <= Go.two64 ->
  let target := State.finalizedTargetSlot head cfg in
  target + 1 = (State.FinalizedEpoch head + 1) * SlotsPerEpoch cfg
  /\ target / SlotsPerEpoch cfg = State.FinalizedEpoch head
  /\ target mod SlotsPerEpoch cfg = SlotsPerEpoch cfg - 1.
Proof.
  intros He Hspe Hfit target.
  assert (Ht : target
    = SlotsPerEpoch cfg - 1 + State.FinalizedEpoch head * SlotsPerEpoch cfg).
  { unfold target. rewrite finalizedTargetSlot_formula.
    rewrite wrap64_small; [lia |]. unfold Go.is_uint64. nia. }
  split; [lia |].
  rewrite Ht. split.
  - rewrite Z.div_add by lia. rewrite Z.div_small by lia. lia.
  - rewrite Z.mod_add by lia. apply Z.mod_small. lia.
Qed.

Lemma finalizedTargetSlot_ends_epoch_witness :
  State.finalizedTargetSlot (State.mkBeaconHead 5 3 4) Scenarios.config + 1 = 4 * 32
  /\ State.finalizedTargetSlot (State.mkBeaconHead 5 3 4) Scenarios.config / 32 = 3
  /\ State.finalizedTargetSlot (State.mkBeaconHead 5 3 4) Scenarios.config mod 32 = 31.
Proof.
  apply (finalizedTargetSlot_ends_epoch (State.mkBeaconHead 5 3 4) Scenarios.config).
  - simpl; lia.
  - simpl; lia.
  - intros Hc; discriminate Hc.
Defined.

(** What the loop adds to the trace: probes and log lines only, at most
    one line per probe and at most one probe per turn. *)
Lemma loop_trace (c : State.Clients) (m : State.NetworkStateManager) (fuel : nat) :
  forall (targetSlot : Z) (w : list State.Event),
  exists l,
    snd (State.loop fuel c m targetSlot w) = w ++ l
    /\ Forall (fun e => State.is_GetBeaconBlock e || State.is_Log e = true) l
    /\ (Scan.logLines l <= Scan.probes l)%nat
    /\ (Scan.probes l <= fuel)%nat.
Proof.
  induction fuel as [|fuel IH]; intros targetSlot w.
  - exists []. simpl. unfold Eff.ret. rewrite app_nil_r.
    repeat split; [constructor | apply Nat.le_refl | apply Nat.le_refl].
  - cbn [State.loop]. unfold Eff.bind.
    destruct (Scan.is_missing
      (State.bc_GetBeaconBlock c (Scan.probes w) (Go.Sprint targetSlot))) eqn:Hm.
    + rewrite loopBody_missing by exact Hm.
      destruct (IH (Go.sub64 targetSlot 1) (w ++ Scan.skipEvents m targetSlot))
        as (l & Hl & Hall & Hlog & Hprobes).
      exists (Scan.skipEvents m targetSlot ++ l).
      rewrite Hl, <- app_assoc. split; [reflexivity |].
      split.
      { apply Forall_app. split; [| exact Hall].
        unfold Scan.skipEvents. destruct (State.log m); repeat constructor. }
      unfold Scan.logLines, Scan.probes in *.
      rewrite !filter_app, !length_app.
      unfold Scan.skipEvents. destruct (State.log m); simpl; lia.
    + rewrite loopBody_answer by exact Hm. cbn [snd].
      exists [State.CallGetBeaconBlock (Go.Sprint targetSlot)].
      split; [reflexivity |].
      split; [repeat constructor |].
      unfold Scan.logLines, Scan.probes. simpl. lia.
Qed.

(** X6.  With a configuration of zero slots per epoch the subtraction
    [SlotsPerEpoch - 1] wraps: whatever the finalized epoch, the scan
    starts at the largest [uint64], and that is the slot of the first
    probe. *)
Theorem finalizedTargetSlot_without_slots
  (c : State.Clients) (m : State.NetworkStateManager) (w : list State.Event)
  (head : State.BeaconHead) (fuel : nat) :
  SlotsPerEpoch (State.BeaconConfig m) = 0 ->
  State.bc_GetBeaconHead c (Scan.heads w) = Go.Ok head ->
  State.finalizedTargetSlot head (State.BeaconConfig m) = Go.two64 - 1
  /\ exists rest,
       snd (State.GetLatestFinalizedBeaconBlock (S fuel) c m w)
       = w ++ State.CallGetBeaconHead
              :: State.CallGetBeaconBlock "18446744073709551615" :: rest.
Proof.
  intros Hz Hhead.
  assert (Ht : State.finalizedTargetSlot head (State.BeaconConfig m) = Go.two64 - 1).
  { unfold State.finalizedTargetSlot. rewrite Hz.
    unfold Go.mul64. rewrite Z.mul_0_r. reflexivity. }
  split; [exact Ht |].
  rewrite (GetLatestFinalizedBeaconBlock_head_ok _ c m w head Hhead), Ht.
  cbn [State.loop]. unfold Eff.bind.
  destruct (Scan.is_missing
    (State.bc_GetBeaconBlock c (Scan.probes (w ++ [State.CallGetBeaconHead]))
       (Go.Sprint (Go.two64 - 1)))) eqn:Hm.
  - rewrite loopBody_missing by exact Hm.
    destruct (loop_trace c m fuel (Go.sub64 (Go.two64 - 1) 1)
                ((w ++ [State.CallGetBeaconHead])
                 ++ Scan.skipEvents m (Go.two64 - 1))) as (l & Hl & _).
    rewrite Hl. unfold Scan.skipEvents. rewrite <- !app_assoc. cbn [app].
    eexists. reflexivity.
  - rewrite loopBody_answer by exact Hm. cbn [snd].
    rewrite <- app_assoc. cbn [app]. exists []. reflexivity.
Qed.

Lemma finalizedTargetSlot_without_slots_witness :
  State.finalizedTargetSlot (State.mkBeaconHead 5 3 4)
    (State.BeaconConfig Scenarios2.managerNoSlots) = 18446744073709551615.
Proof.
  exact (proj1 (finalizedTargetSlot_without_slots Scenarios.clientsB
                  Scenarios2.managerNoSlots [] (State.mkBeaconHead 5 3 4) 0
                  eq_refl eq_refl)).
Defined.

(** X7.  When the chain head cannot be fetched the function returns that
    error, wrapped, without a single probe, whatever the fuel. *)
Theorem head_failure_aborts_before_scan
  (c : State.Clients) (m : State.NetworkStateManager) (w : list State.Event)
  (err : Go.error) (fuel : nat) :
  State.bc_GetBeaconHead c (Scan.heads w) = Go.Err err ->
  State.GetLatestFinalizedBeaconBlock fuel c m w
  = (Some (Go.Err (Go.Errorf_w "error getting Beacon chain head: " err)),
     w ++ [State.CallGetBeaconHead]).
Proof.
  intros Hh.
  unfold State.GetLatestFinalizedBeaconBlock, State.GetBeaconHead,
    Eff.bind, Eff.calls, Eff.emit, Eff.ret.
  fold (Scan.heads w). rewrite Hh. reflexivity.
Qed.

Lemma head_failure_aborts_before_scan_witness :
  State.GetLatestFinalizedBeaconBlock 0 Scenarios2.clientsNoHead Scenarios.manager []
  = (Some (Go.Err (Go.Errorf_w "error getting Beacon chain head: " Scenarios.refused)),
     [State.CallGetBeaconHead]).
Proof.
  exact (head_failure_aborts_before_scan Scenarios2.clientsNoHead
           Scenarios.manager [] Scenarios.refused 0 eq_refl).
Defined.

(** The probes of a trace do not depend on its log lines. *)
Lemma probes_silent (w : list State.Event) :
  Scan.probes (More.silent w) = Scan.probes w.
Proof.
  unfold Scan.probes, More.silent.
  induction w as [|e w IH]; [reflexivity |].
  destruct e; simpl; rewrite ?IH; reflexivity.
Qed.

Lemma silent_app (w1 w2 : list State.Event) :
  More.silent (w1 ++ w2) = More.silent w1 ++ More.silent w2.
Proof. apply filter_app. Qed.

Lemma silent_skipEvents (m : State.NetworkStateManager) (slot : Z) :
  More.silent (Scan.skipEvents m slot) = [State.CallGetBeaconBlock (Go.Sprint slot)].
Proof. unfold Scan.skipEvents. destruct (State.log m); reflexivity. Qed.

(** The loop under two loggers, from traces that agree up to log lines. *)
Lemma loop_logger_independent (c : State.Clients)
  (m1 m2 : State.NetworkStateManager) (fuel : nat) :
  forall (targetSlot : Z) (w1 w2 : list State.Event),
    More.silent w1 = More.silent w2 ->
    fst (State.loop fuel c m1 targetSlot w1) = fst (State.loop fuel c m2 targetSlot w2)
    /\ More.silent (snd (State.loop fuel c m1 targetSlot w1))
       = More.silent (snd (State.loop fuel c m2 targetSlot w2)).
Proof.
  induction fuel as [|fuel IH]; intros targetSlot w1 w2 Hw.
  - simpl. unfold Eff.ret. split; [reflexivity | exact Hw].
  - assert (Hp : Scan.probes w1 = Scan.probes w2)
      by (rewrite <- (probes_silent w1), <- (probes_silent w2), Hw; reflexivity).
    cbn [State.loop]. unfold Eff.bind.
    destruct (Scan.is_missing
      (State.bc_GetBeaconBlock c (Scan.probes w1) (Go.Sprint targetSlot))) eqn:Hm.
    + rewrite (loopBody_missing c m1) by exact Hm.
      rewrite Hp in Hm. rewrite (loopBody_missing c m2) by exact Hm.
      cbv beta iota. apply IH. rewrite !silent_app, !silent_skipEvents, Hw. reflexivity.
    + rewrite (loopBody_answer c m1) by exact Hm.
      rewrite Hp in Hm. rewrite (loopBody_answer c m2) by exact Hm.
      cbv beta iota. unfold Eff.ret. cbn [fst snd].
      rewrite Hp. split; [reflexivity |].
      rewrite !silent_app, Hw. reflexivity.
Qed.

(** X8.  The logger has no influence on the scan: with any two loggers
    (present or nil) the function returns the same result, and the two
    traces are the same once the log lines are taken out. *)
Theorem scan_result_independent_of_logger
  (c : State.Clients) (m : State.NetworkStateManager)
  (l1 l2 : option State.ColorLogger) (fuel : nat) (w : list State.Event) :
  fst (State.GetLatestFinalizedBeaconBlock fuel c (More.withLogger l1 m) w)
  = fst (State.GetLatestFinalizedBeaconBlock fuel c (More.withLogger l2 m) w)
  /\ More.silent
       (snd (State.GetLatestFinalizedBeaconBlock fuel c (More.withLogger l1 m) w))
     = More.silent
         (snd (State.GetLatestFinalizedBeaconBlock fuel c (More.withLogger l2 m) w)).
Proof.
  unfold State.GetLatestFinalizedBeaconBlock, State.GetBeaconHead.
  unfold Eff.bind at 1 2 3 4 5 6 7 8 9 10 11 12.
  unfold Eff.calls, Eff.emit, Eff.ret at 1 3 5 7.
  destruct (State.bc_GetBeaconHead c _) as [head | err].
  - apply loop_logger_independent. reflexivity.
  - split; reflexivity.
Qed.

Lemma scan_result_independent_of_logger_witness :
  fst (State.GetLatestFinalizedBeaconBlock 3 Scenarios.clientsB
         (More.withLogger None Scenarios.manager) [])
  = Some (Go.Ok Scenarios.block125)
  /\ snd (State.GetLatestFinalizedBeaconBlock 3 Scenarios.clientsB
            (More.withLogger None Scenarios.manager) [])
     = [State.CallGetBeaconHead; State.CallGetBeaconBlock "127";
        State.CallGetBeaconBlock "126"; State.CallGetBeaconBlock "125"].
Proof.
  pose proof (scan_result_independent_of_logger Scenarios.clientsB
                Scenarios.manager None Scenarios.logger 3 []) as (H1 & H2).
  split; [exact H1 | reflexivity].
Defined.

(** X12.  [GetLatestFinalizedBeaconBlock] talks to the beacon client
    only: it fetches the chain head once, never fetches an execution
    header nor asks for a snapshot, makes at most [fuel] probes and
    writes at most one log line per probe. *)
Theorem scan_touches_beacon_client_only
  (c : State.Clients) (m : State.NetworkStateManager) (fuel : nat)
  (w : list State.Event) :
  exists l,
    snd (State.GetLatestFinalizedBeaconBlock fuel c m w)
    = w ++ State.CallGetBeaconHead :: l
    /\ Forall (fun e => State.is_GetBeaconBlock e || State.is_Log e = true) l
    /\ Scan.heads l = O /\ Scan.headers l = O /\ Scan.builds l = O
    /\ (Scan.logLines l <= Scan.probes l)%nat
    /\ (Scan.probes l <= fuel)%nat.
Proof.
  assert (Hnone : forall l,
    Forall (fun e => State.is_GetBeaconBlock e || State.is_Log e = true) l ->
    Scan.heads l = O /\ Scan.headers l = O /\ Scan.builds l = O).
  { induction l as [|e l IH]; intros Hall; [repeat split |].
    inversion Hall as [|? ? He Hl]; subst.
    destruct (IH Hl) as (H1 & H2 & H3).
    unfold Scan.heads, Scan.headers, Scan.builds in *.
    destruct e; simpl in He; try discriminate; simpl; auto. }
  unfold State.GetLatestFinalizedBeaconBlock, State.GetBeaconHead.
  unfold Eff.bind at 1 2 3. unfold Eff.calls, Eff.emit, Eff.ret at 1.
  destruct (State.bc_GetBeaconHead c _) as [head | err].
  - destruct (loop_trace c m fuel
                (State.finalizedTargetSlot head (State.BeaconConfig m))
                (w ++ [State.CallGetBeaconHead]))
      as (l & Hl & Hall & Hlog & Hprobes).
    exists l. rewrite Hl, <- app_assoc.
    split; [reflexivity |]. split; [exact Hall |].
    destruct (Hnone l Hall) as (H1 & H2 & H3). auto.
  - exists []. unfold Eff.ret. cbn [snd].
    repeat split; try reflexivity; [constructor | apply Nat.le_0_l].
Qed.

(** ** GetHeadState: edges of the slot computation *)

Lemma wrap_i64_range (z : Z) : Go.is_int64 (Go.wrap_i64 z).
Proof.
  unfold Go.is_int64, Go.wrap_i64, Go.two63, Go.two64.
  pose proof (Z.mod_pos_bound (z + 2 ^ 63) (2 ^ 64) ltac:(reflexivity)).
  change (2 ^ 64) with (2 * 2 ^ 63) in *. lia.
Qed.

(** Adding a [Duration] to a whole-second time lands on another
    whole-second time only if the two are at most 9223372036 seconds
    apart. *)
Lemma Add_cannot_reach (x y d : Z) :
  0 <= y -> x < Go.two63 -> 9223372036 < x - y -> Go.is_int64 d ->
  time.Equal (time.Add (time.mkTime y 0) d) (time.mkTime x 0) = false.
Proof.
  unfold Go.is_int64, Go.two63. intros Hy Hx Hd Hr.
  change (2 ^ 63) with 9223372036854775808 in *.
  pose proof (Z.quot_rem' d time.Second) as Hqr.
  pose proof (Z.rem_bound_abs d time.Second ltac:(discriminate)) as Hrem.
  unfold time.Second in *.
  assert (Hi : forall z, -9223372036854775808 <= z < 9223372036854775808 ->
                         Go.wrap_i64 z = z).
  { intros z Hz. apply wrap_i64_small. unfold Go.is_int64, Go.two63.
    change (2 ^ 63) with 9223372036854775808. exact Hz. }
  unfold time.Add. cbn [time.ext time.nsec]. unfold time.Second.
  rewrite Z.add_0_l.
  destruct (Z.leb_spec 1000000000 (Z.rem d 1000000000)) as [Hbig | Hsmall];
    [lia |].
  destruct (Z.ltb_spec (Z.rem d 1000000000) 0) as [Hneg | Hnonneg].
  - (* a negative remainder leaves a non-zero nanosecond part *)
    unfold time.addSec, time.Equal. cbn [time.ext time.nsec].
    apply andb_false_iff. right.
    destruct (Bool.eqb _ _); [| destruct (0 <? _)];
      cbn [time.nsec]; apply Z.eqb_neq; lia.
  - destruct (Z.eq_dec (Z.rem d 1000000000) 0) as [Hz | Hnz].
    + (* whole seconds: too few of them *)
      unfold time.addSec, time.Equal. cbn [time.ext time.nsec].
      rewrite (Hi (y + Z.quot d 1000000000)) by lia.
      assert (Hb : Bool.eqb (y <? y + Z.quot d 1000000000)
                            (0 <? Z.quot d 1000000000) = true).
      { destruct (Z.ltb_spec y (y + Z.quot d 1000000000)),
                 (Z.ltb_spec 0 (Z.quot d 1000000000)); try reflexivity; lia. }
      rewrite Hb. cbn [time.ext time.nsec].
      apply andb_false_iff. left. apply Z.eqb_neq. lia.
    + unfold time.addSec, time.Equal. cbn [time.ext time.nsec].
      apply andb_false_iff. right.
      destruct (Bool.eqb _ _); [| destruct (0 <? _)];
        cbn [time.nsec]; apply Z.eqb_neq; lia.
Qed.

(** Beyond that distance [Sub] answers the largest [Duration]. *)
Lemma Sub_saturates (x y : Z) :
  0 <= y -> x < Go.two63 -> 9223372036 < x - y ->
  time.Sub (time.mkTime x 0) (time.mkTime y 0) = time.maxDuration.
Proof.
  intros Hy Hx Hd. unfold time.Sub.
  rewrite Add_cannot_reach; try assumption; [| apply wrap_i64_range].
  unfold time.Before. cbn [time.ext time.nsec].
  destruct (Z.ltb_spec x y); [lia |].
  destruct (Z.eqb_spec x y); [lia |]. reflexivity.
Qed.

(** X11.  The time since genesis goes through a [time.Duration]: for a
    header stamped below 2^63 - 62135596800 (the seconds [time.Unix]
    holds without overflow) and more than 9223372036 seconds (about 292
    years) after genesis the subtraction saturates, and the slot is that
    of 9223372036 seconds for every such timestamp. *)
Theorem headTargetSlot_saturates_after_292_years
  (neg : Z -> Z) (cfg : Eth2Config) (t : Z) :
  Eth2Config_typed cfg -> 0 < SecondsPerSlot cfg -> Go.is_uint64 t ->
  t < Go.two63 - time.unixToInternal ->
  9223372036 < t - GenesisTime cfg ->
  State.headTargetSlot neg cfg t = Some (9223372036 / SecondsPerSlot cfg).
Proof.
  intros Hty Hsps Ht Hrep Hfar.
  destruct Hty as (_ & Hg & _).
  unfold Go.is_uint64, Go.two64, Go.two63 in *.
  change time.unixToInternal with 62135596800 in Hrep.
  change (2 ^ 63) with 9223372036854775808 in *.
  change (2 ^ 64) with 18446744073709551616 in *.
  assert (Hi : forall z, -9223372036854775808 <= z < 9223372036854775808 ->
                         Go.is_int64 z).
  { intros z Hz. unfold Go.is_int64, Go.two63.
    change (2 ^ 63) with 9223372036854775808. exact Hz. }
  unfold State.headTargetSlot, Go.int64_of_uint64.
  rewrite (wrap_i64_small t), (wrap_i64_small (GenesisTime cfg)) by (apply Hi; lia).
  rewrite !Unix_whole_seconds
    by (apply Hi; change time.unixToInternal with 62135596800; lia).
  rewrite Sub_saturates.
  - change (time.uint64_of_Seconds neg time.maxDuration) with 9223372036.
    apply div64_pos, Hsps.
  - change time.unixToInternal with 62135596800. lia.
  - unfold Go.two63. change time.unixToInternal with 62135596800.
    change (2 ^ 63) with 9223372036854775808. lia.
  - lia.
Qed.

Lemma headTargetSlot_saturates_after_292_years_witness :
  State.headTargetSlot time.neg_wraps Scenarios.config 20000000000
  = Some 768614336.
Proof.
  apply (headTargetSlot_saturates_after_292_years time.neg_wraps
           Scenarios.config 20000000000).
  - unfold Eth2Config_typed, Go.is_uint64, Go.two64; simpl; lia.
  - simpl; lia.
  - unfold Go.is_uint64, Go.two64; lia.
  - reflexivity.
  - reflexivity.
Defined.



(** X9.  With a configuration of zero seconds per slot [GetHeadState]
    panics on the division, after the header was fetched and before any
    snapshot is asked for. *)
Theorem head_state_panics_without_slot_duration
  (c : State.Clients) (m : State.NetworkStateManager) (w : list State.Event)
  (header : State.Header) :
  State.ec_HeaderByNumber c (Scan.headers w) = Go.Ok header ->
  SecondsPerSlot (State.BeaconConfig m) = 0 ->
  State.GetHeadState c m w = (None, w ++ [State.CallHeaderByNumber])
  /\ Scan.builds (snd (State.GetHeadState c m w)) = Scan.builds w.
Proof.
  intros Hh Hz.
  rewrite (GetHeadState_zero_slot_duration c m w header Hh Hz).
  split; [reflexivity |]. cbn [snd]. apply builds_after_header.
Qed.

Lemma head_state_panics_without_slot_duration_witness :
  State.GetHeadState Scenarios.clientsB Scenarios2.managerNoDuration []
  = (None, [State.CallHeaderByNumber]).
Proof.
  exact (proj1 (head_state_panics_without_slot_duration Scenarios.clientsB
                  Scenarios2.managerNoDuration [] (State.mkHeader 77 1600)
                  eq_refl eq_refl)).
Defined.

(** X13.  [GetHeadState] fetches the execution header once and asks for
    at most one snapshot; it never calls the beacon client and writes no
    log line.  Its error is the wrapped error of the header fetch or,
    unchanged, the error of the snapshot builder. *)
Theorem head_state_touches_execution_client_and_builder
  (c : State.Clients) (m : State.NetworkStateManager) (w : list State.Event) :
  (snd (State.GetHeadState c m w) = w ++ [State.CallHeaderByNumber]
   \/ exists slot,
        snd (State.GetHeadState c m w)
        = w ++ [State.CallHeaderByNumber;
                State.CallCreateNetworkState slot (State.BeaconConfig m)])
  /\ (forall err,
        fst (State.GetHeadState c m w) = Some (Go.Err err) ->
        (exists e, State.ec_HeaderByNumber c (Scan.headers w) = Go.Err e
                   /\ err = Go.Errorf_w "error getting latest EL block: " e)
        \/ (exists slot,
              State.pkg_CreateNetworkState c (Scan.builds w) (State.log m) slot
                (State.BeaconConfig m) = Go.Err err)).
Proof.
  destruct (State.ec_HeaderByNumber c (Scan.headers w)) as [header | e] eqn:Hh.
  - destruct (State.headTargetSlot (State.float_neg c) (State.BeaconConfig m)
                (State.Time header)) as [slot |] eqn:Hs.
    + rewrite (GetHeadState_header_ok c m w header slot Hh Hs). cbn [fst snd].
      split; [right; exists slot; reflexivity |].
      intros err Herr. right. exists slot. congruence.
    + assert (Hrun : State.GetHeadState c m w
                     = (None, w ++ [State.CallHeaderByNumber])).
      { unfold State.GetHeadState, State.HeaderByNumber,
          Eff.bind, Eff.calls, Eff.emit, Eff.ret.
        fold (Scan.headers w). rewrite Hh, Hs. reflexivity. }
      rewrite Hrun. cbn [fst snd].
      split; [left; reflexivity | discriminate].
  - rewrite (GetHeadState_header_err c m w e Hh). cbn [fst snd].
    split; [left; reflexivity |].
    intros err Herr. left. exists e. split; [reflexivity | congruence].
Qed.

(** ** The ODAO collector: failures of the legacy path *)

Lemma runGoroutine_error (env : Collectors.Env) (g : Collectors.Goroutine)
  (v : Collectors.Floats) (w : list Collectors.Event) :
  snd (fst (Collectors.runGoroutine env g v w)) = More.failure env g.
Proof.
  destruct g; unfold Collectors.runGoroutine, More.failure,
    Eff.bind, Eff.emit, Eff.ret.
  - destruct (Collectors.rp_BlockNumber env); reflexivity.
  - destruct (Collectors.network_GetPricesBlock env); reflexivity.
  - destruct (Collectors.network_GetLatestReportablePricesBlock env); reflexivity.
Qed.

(** The group keeps the error of the first goroutine that fails. *)
Lemma runGroup_error (env : Collectors.Env) (sched : list Collectors.Goroutine) :
  forall (v : Collectors.Floats) (first : option Go.error)
         (w : list Collectors.Event),
    snd (fst (Collectors.runGroup env sched v first w))
    = match first with
      | Some e => Some e
      | None => More.firstFailure env sched
      end.
Proof.
  induction sched as [|g sched IH]; intros v first w.
  - simpl. unfold Eff.ret. destruct first; reflexivity.
  - cbn [Collectors.runGroup More.firstFailure]. unfold Eff.bind.
    pose proof (runGoroutine_error env g v w) as Hg.
    destruct (Collectors.runGoroutine env g v w) as [[v' err] w'].
    cbn [fst snd] in Hg. subst err.
    rewrite IH. destruct first as [e |]; [reflexivity |].
    destruct (More.failure env g); reflexivity.
Qed.

(** The trace of a legacy collection, by the first failure. *)
Lemma collectImpl_Legacy_trace (env : Collectors.Env) (w : list Collectors.Event) :
  match More.firstFailure env (Collectors.schedule env) with
  | Some e =>
      snd (Collectors.collectImpl_Legacy env w)
      = w ++ map Gauges.queryOf (Collectors.schedule env)
          ++ [Collectors.Printf
                ("[" ++ Collectors.logPrefix ++ "] " ++ Go.Error e
                     ++ Collectors.newline)]
  | None =>
      exists v,
        snd (Collectors.collectImpl_Legacy env w)
        = w ++ map Gauges.queryOf (Collectors.schedule env) ++ Gauges.gauges v
  end.
Proof.
  unfold Collectors.collectImpl_Legacy, Eff.bind.
  pose proof (runGroup_error env (Collectors.schedule env)
                Collectors.initFloats None w) as He.
  destruct (runGroup_run env (Collectors.schedule env)
              Collectors.initFloats None w) as (Ht & _).
  destruct (Collectors.runGroup env (Collectors.schedule env)
              Collectors.initFloats None w) as [[v err] w'].
  cbn [fst snd] in He, Ht. subst w'. rewrite <- He.
  destruct err as [e |].
  - unfold Collectors.logError, Eff.emit. cbn [snd].
    rewrite <- app_assoc. reflexivity.
  - exists v. rewrite sendAll_run. cbn [snd].
    rewrite <- app_assoc. reflexivity.
Qed.

Lemma firstFailure_some (env : Collectors.Env) (sched : list Collectors.Goroutine) :
  (exists g, In g sched /\ More.failure env g <> None) ->
  exists e g, In g sched /\ More.failure env g = Some e
              /\ More.firstFailure env sched = Some e.
Proof.
  induction sched as [|g sched IH]; intros (g0 & Hin & Hf); [destruct Hin |].
  cbn [More.firstFailure].
  destruct (More.failure env g) as [e |] eqn:Hg.
  - exists e, g. split; [left; reflexivity | split; [exact Hg | reflexivity]].
  - destruct Hin as [-> | Hin]; [congruence |].
    destruct (IH (ex_intro _ g0 (conj Hin Hf))) as (e & g' & Hin' & Hg' & He).
    exists e, g'. split; [right; exact Hin' | split; assumption].
Qed.

(** X14.  On the legacy path, when a scheduled query fails, the
    collection sends no gauge at all; the other queries are made all the
    same (the group does not cancel them), and exactly one line is
    printed: the prefixed error of the first goroutine that failed. *)
Theorem legacy_failure_sends_no_gauge
  (env : Collectors.Env) (w : list Collectors.Event) :
  Collectors.stateLocker_GetState env = None ->
  (exists g, In g (Collectors.schedule env) /\ More.failure env g <> None) ->
  exists e g,
    In g (Collectors.schedule env) /\ More.failure env g = Some e
    /\ More.firstFailure env (Collectors.schedule env) = Some e
    /\ snd (Collectors.Collect env w)
       = w ++ Collectors.CallGetState
            :: map Gauges.queryOf (Collectors.schedule env)
            ++ [Collectors.Printf
                  ("[ODAO Collector] " ++ Go.Error e ++ Collectors.newline)]
    /\ Gauges.sends (snd (Collectors.Collect env w)) = Gauges.sends w.
Proof.
  intros Hnone Hfail.
  destruct (firstFailure_some env _ Hfail) as (e & g & Hin & Hg & He).
  exists e, g. split; [exact Hin |]. split; [exact Hg |]. split; [exact He |].
  rewrite Collect_run, Hnone.
  pose proof (collectImpl_Legacy_trace env (w ++ [Collectors.CallGetState])) as Ht.
  rewrite He in Ht. rewrite Ht.
  split.
  - rewrite <- app_assoc. reflexivity.
  - rewrite !sends_app, sends_queryOf. simpl. rewrite !app_nil_r. reflexivity.
Qed.

Lemma legacy_failure_sends_no_gauge_witness :
  snd (Collectors.Collect Scenarios2.envOneFails [])
  = [Collectors.CallGetState;
     Collectors.CallGetLatestReportablePricesBlock;
     Collectors.CallBlockNumber;
     Collectors.CallGetPricesBlock;
     Collectors.Printf
       ("[ODAO Collector] Error getting ETH1 latest reportable block: connection refused"
          ++ Collectors.newline)].
Proof.
  destruct (legacy_failure_sends_no_gauge Scenarios2.envOneFails [] eq_refl)
    as (e & g & _ & _ & He & Ht & _).
  - exists Collectors.GoPricesBlock. split; [simpl; tauto | discriminate].
  - rewrite Ht. injection He as <-. reflexivity.
Defined.

(** X15.  On the legacy path, with the three goroutines scheduled, the
    gauges are sent exactly when all three queries succeed. *)
Theorem legacy_sends_iff_all_queries_succeed (env : Collectors.Env) :
  Collectors.stateLocker_GetState env = None ->
  In (Collectors.schedule env) Collectors.schedules ->
  (Gauges.sends (snd (Collectors.Collect env [])) <> []
   <-> Go.is_Err (Collectors.rp_BlockNumber env) = false
       /\ Go.is_Err (Collectors.network_GetPricesBlock env) = false
       /\ Go.is_Err (Collectors.network_GetLatestReportablePricesBlock env) = false).
Proof.
  intros Hnone Hsched.
  rewrite Collect_run, Hnone.
  pose proof (collectImpl_Legacy_trace env ([] ++ [Collectors.CallGetState])) as Ht.
  assert (Hff : More.firstFailure env (Collectors.schedule env) = None
    <-> Go.is_Err (Collectors.rp_BlockNumber env) = false
        /\ Go.is_Err (Collectors.network_GetPricesBlock env) = false
        /\ Go.is_Err (Collectors.network_GetLatestReportablePricesBlock env) = false).
  { destruct Hsched as [<- | [<- | [<- | [<- | [<- | [<- | []]]]]]];
      cbn [More.firstFailure More.failure];
      destruct (Collectors.rp_BlockNumber env),
               (Collectors.network_GetPricesBlock env),
               (Collectors.network_GetLatestReportablePricesBlock env);
      cbn [Go.is_Err]; split; intros H;
      try discriminate H; try reflexivity;
      try (destruct H as (H1 & H2 & H3); discriminate);
      repeat split. }
  destruct (More.firstFailure env (Collectors.schedule env)) as [e |].
  - rewrite Ht, !sends_app, sends_queryOf. simpl.
    split; [intros H; exfalso; apply H; reflexivity |].
    intros H. apply Hff in H. discriminate H.
  - destruct Ht as (v & Ht). rewrite Ht, !sends_app, sends_queryOf. simpl.
    split; [intros _; apply Hff; reflexivity | discriminate].
Qed.

Lemma legacy_sends_iff_all_queries_succeed_witness :
  Gauges.sends (snd (Collectors.Collect Scenarios.envLegacy [])) <> []
  /\ Gauges.sends (snd (Collectors.Collect Scenarios2.envOneFails [])) = [].
Proof.
  split.
  - apply (proj2 (legacy_sends_iff_all_queries_succeed Scenarios.envLegacy
                    eq_refl ltac:(simpl; tauto))).
    repeat split.
  - reflexivity.
Defined.

(** ** Describe and Collect *)

Lemma sentDescs_app (w1 w2 : list Collectors.Event) :
  More.sentDescs (w1 ++ w2) = More.sentDescs w1 ++ More.sentDescs w2.
Proof. apply flat_map_app. Qed.

Lemma sentDescs_queryOf (sched : list Collectors.Goroutine) :
  More.sentDescs (map Gauges.queryOf sched) = [].
Proof. induction sched as [|[] sched IH]; simpl; auto. Qed.

(** X16.  [Describe] announces four different descriptors, and a
    collection by the ODAO collector sends either nothing or one gauge
    for each announced descriptor, in the order of the announcement. *)
Theorem odao_collect_matches_describe (env : Collectors.Env) :
  NoDup (snd (Odao.Describe []))
  /\ List.length (snd (Odao.Describe [])) = 4%nat
  /\ (More.sentDescs (snd (Collectors.Collect env [])) = []
      \/ More.sentDescs (snd (Collectors.Collect env [])) = snd (Odao.Describe [])).
Proof.
  split.
  { cbv [Odao.Describe Eff.bind Eff.emit snd app].
    repeat constructor; simpl; intuition discriminate. }
  split; [reflexivity |].
  rewrite Collect_run.
  destruct (Collectors.stateLocker_GetState env) as [state |].
  - right. rewrite collectImpl_Atlas_run. reflexivity.
  - destruct (collectImpl_Legacy_run env ([] ++ [Collectors.CallGetState]))
      as [(line & Ht) | (v & _ & Ht)]; rewrite Ht;
      rewrite !sentDescs_app, sentDescs_queryOf.
    + left. reflexivity.
    + right. reflexivity.
Qed.

(** ** The demand collector *)

Section DemandFacts.

Variable F : Type.
Variable minusOne : F.
Variable WeiToEth : Z -> F.

(** X17.  A collection by the demand collector never stops early: the
    three queries are made in the same order whatever fails, one gauge
    is sent for each descriptor [Describe] announces, in that order, and
    one line is logged for each failed query. *)
Theorem demand_collect_always_sends_four (env : Demand.Env) :
  let out := snd (Demand.Collect minusOne WeiToEth env []) in
  More.demandDescs out = snd (Demand.Describe [])
  /\ filter (fun e => negb (Demand.is_Send e || Demand.is_LogPrintf e)) out
     = [Demand.CallGetBalance; Demand.CallGetExcessBalance;
        Demand.CallGetQueueCapacity]
  /\ List.length (filter Demand.is_LogPrintf out) = More.demandFailures env.
Proof.
  destruct env as [[b | e1] [x | e2] [q | e3]];
    cbv [Demand.Collect Demand.Describe More.demandFailures Eff.bind Eff.emit
         Eff.ret Demand.deposit_GetBalance Demand.deposit_GetExcessBalance
         Demand.minipool_GetQueueCapacity Go.is_Err];
    repeat split.
Qed.

(** X18.  The values of the four gauges: the amount converted to ether
    when its query succeeded and -1 when it failed; total and effective
    capacity come from one query and are -1 together. *)
Theorem demand_gauge_values (env : Demand.Env) :
  filter Demand.is_Send (snd (Demand.Collect minusOne WeiToEth env []))
  = [ Demand.Send Demand.depositPoolBalance
        (More.demandGauge minusOne WeiToEth (Demand.deposit_GetBalance env));
      Demand.Send Demand.depositPoolExcess
        (More.demandGauge minusOne WeiToEth (Demand.deposit_GetExcessBalance env));
      Demand.Send Demand.totalMinipoolCapacity
        (match Demand.minipool_GetQueueCapacity env with
         | Go.Ok q => WeiToEth (Demand.Total q)
         | Go.Err _ => minusOne
         end);
      Demand.Send Demand.effectiveMinipoolCapacity
        (match Demand.minipool_GetQueueCapacity env with
         | Go.Ok q => WeiToEth (Demand.Effective q)
         | Go.Err _ => minusOne
         end) ].
Proof.
  destruct env as [[b | e1] [x | e2] [q | e3]];
    cbv [Demand.Collect More.demandGauge Eff.bind Eff.emit Eff.ret
         Demand.deposit_GetBalance Demand.deposit_GetExcessBalance
         Demand.minipool_GetQueueCapacity];
    reflexivity.
Qed.

End DemandFacts.

(** The excess query times out; the other two succeed. *)
Lemma demand_gauge_values_witness :
  filter Demand.is_Send
    (snd (Demand.Collect (-1) Scenarios2.wholeEth Scenarios2.demandEnv []))
  = [ Demand.Send Demand.depositPoolBalance 5;
      Demand.Send Demand.depositPoolExcess (-1);
      Demand.Send Demand.totalMinipoolCapacity 64;
      Demand.Send Demand.effectiveMinipoolCapacity 32 ].
Proof.
  exact (demand_gauge_values Z (-1) Scenarios2.wholeEth Scenarios2.demandEnv).
Defined.

(** ** The deposit commands *)

Lemma action0_rejected (api : DepositCommands.Api)
  (run : DepositCommands.Context -> option Go.error) (e : DepositCommands.Event)
  (c : DepositCommands.Context) (w : list DepositCommands.Event) (err : Go.error) :
  fst (DepositCommands.ValidateAPIArgs api c 0%nat false) = Some err ->
  DepositCommands.action0 api run e c w
  = (Some err, w ++ [DepositCommands.CallValidateAPIArgs 0 false]).
Proof.
  intros H. unfold DepositCommands.action0, Eff.bind, Eff.emit, Eff.ret.
  rewrite H. reflexivity.
Qed.

Lemma action0_accepted (api : DepositCommands.Api)
  (run : DepositCommands.Context -> option Go.error) (e : DepositCommands.Event)
  (c : DepositCommands.Context) (w : list DepositCommands.Event) :
  fst (DepositCommands.ValidateAPIArgs api c 0%nat false) = None ->
  DepositCommands.action0 api run e c w
  = (run c, w ++ [DepositCommands.CallValidateAPIArgs 0 false; e]).
Proof.
  intros H. unfold DepositCommands.action0, Eff.bind, Eff.emit, Eff.ret.
  rewrite H, <- app_assoc. reflexivity.
Qed.

(** The four actions without arguments. *)
Lemma action0_actsAs (api : DepositCommands.Api)
  (run : DepositCommands.Context -> option Go.error) (e : DepositCommands.Event) :
  More.actsAs api (DepositCommands.action0 api run e) 0 false
    (fun _ _ => e) (fun c _ => run c).
Proof.
  intros c w.
  destruct (DepositCommands.ValidateAPIArgs api c 0 false) as [[err |] ran] eqn:Hv.
  - apply action0_rejected. rewrite Hv. reflexivity.
  - apply action0_accepted. rewrite Hv. reflexivity.
Qed.

(** X19.  The five subcommands are [required], [status], [reserve],
    [complete] and [cancel], each with an action.  Every action
    validates its arguments before anything else and returns a
    validation error at once, calling no API function; when the
    validation passes it calls the API function of its subcommand, that
    one only, and returns its result: [getRplRequired],
    [getDepositStatus], [reserveDeposit] with the first argument,
    [completeDeposit], [cancelDeposit].  Only [reserve] announces an
    argument. *)
Theorem subcommand_validates_before_running (api : DepositCommands.Api) :
  map DepositCommands.Name (DepositCommands.subcommands api)
  = ["required"; "status"; "reserve"; "complete"; "cancel"]%string
  /\ exists required status reserve complete cancel,
       map DepositCommands.Action (DepositCommands.subcommands api)
       = [Some required; Some status; Some reserve; Some complete; Some cancel]
       /\ More.actsAs api required 0 false
            (fun _ _ => DepositCommands.CallGetRplRequired)
            (fun c _ => DepositCommands.getRplRequired api c)
       /\ More.actsAs api status 0 false
            (fun _ _ => DepositCommands.CallGetDepositStatus)
            (fun c _ => DepositCommands.getDepositStatus api c)
       /\ More.actsAs api reserve 1 true
            (fun c ran => DepositCommands.CallReserveDeposit (More.durationIdOf c ran))
            (fun c ran => DepositCommands.reserveDeposit api c (More.durationIdOf c ran))
       /\ More.actsAs api complete 0 false
            (fun _ _ => DepositCommands.CallCompleteDeposit)
            (fun c _ => DepositCommands.completeDeposit api c)
       /\ More.actsAs api cancel 0 false
            (fun _ _ => DepositCommands.CallCancelDeposit)
            (fun c _ => DepositCommands.cancelDeposit api c).
Proof.
  split; [reflexivity |].
  do 5 eexists. split; [reflexivity |].
  split; [apply action0_actsAs |].
  split; [apply action0_actsAs |].
  split.
  { intros c w.
    unfold DepositCommands.actionReserve, More.durationIdOf,
      Eff.bind, Eff.emit, Eff.ret.
    destruct (DepositCommands.ValidateAPIArgs api c 1 true) as [[err |] ran].
    - reflexivity.
    - rewrite <- app_assoc. reflexivity. }
  split; apply action0_actsAs.
Qed.

(** [reserve] without an argument is rejected by a validation that counts
    the arguments; with one argument that argument reaches the API. *)
Lemma subcommand_validates_before_running_witness :
  exists reserve,
    nth_error (map DepositCommands.Action
                 (DepositCommands.subcommands Scenarios2.api)) 2
    = Some (Some reserve)
    /\ reserve (DepositCommands.mkContext []) []
       = (Some Scenarios2.badArgs, [DepositCommands.CallValidateAPIArgs 1 true])
    /\ reserve (DepositCommands.mkContext ["3m"%string]) []
       = (None, [DepositCommands.CallValidateAPIArgs 1 true;
                 DepositCommands.CallReserveDeposit "3m"]).
Proof.
  destruct (subcommand_validates_before_running Scenarios2.api)
    as (_ & required & status & reserve & complete & cancel
          & Hacts & _ & _ & Hreserve & _ & _).
  exists reserve. split; [rewrite Hacts; reflexivity |].
  split; rewrite Hreserve; reflexivity.
Defined.

Lemma find_app_first {A : Type} (f : A -> bool) (l1 l2 : list A) :
  find f (l1 ++ l2)
  = match find f l1 with
    | Some a => Some a
    | None => find f l2
    end.
Proof.
  induction l1 as [|a l1 IH]; [reflexivity |].
  simpl. destruct (f a); [reflexivity | exact IH].
Qed.

(** X20.  Registration adds to the end of the application's commands and
    shadows nothing: a word that selected a command before selects the
    same command afterwards; a word that selected none selects the
    deposit command exactly when it is its name or one of its aliases,
    and that command carries the five subcommands. *)
Theorem RegisterCommands_keeps_earlier_commands
  (api : DepositCommands.Api) (app : DepositCommands.App)
  (name : string) (aliases : list string) (word : string) :
  let registered :=
    DepositCommands.Commands (DepositCommands.RegisterCommands api app name aliases) in
  List.length registered = S (List.length (DepositCommands.Commands app))
  /\ firstn (List.length (DepositCommands.Commands app)) registered
     = DepositCommands.Commands app
  /\ DepositCommands.lookup registered word
     = match DepositCommands.lookup (DepositCommands.Commands app) word with
       | Some cmd => Some cmd
       | None =>
           if String.eqb name word || existsb (String.eqb word) aliases
           then Some (DepositCommands.mkCommand name aliases
                        "Manage node deposits" "" None
                        (DepositCommands.subcommands api))
           else None
       end.
Proof.
  intros registered. unfold registered, DepositCommands.RegisterCommands.
  cbn [DepositCommands.Commands].
  split; [rewrite length_app; simpl; lia |].
  split.
  - rewrite firstn_app, Nat.sub_diag, firstn_all. simpl. apply app_nil_r.
  - unfold DepositCommands.lookup. rewrite find_app_first.
    destruct (find _ (DepositCommands.Commands app)); [reflexivity |].
    cbn [find]. unfold DepositCommands.HasName.
    cbn [DepositCommands.Name DepositCommands.Aliases].
    destruct (String.eqb name word || existsb (String.eqb word) aliases);
      reflexivity.
Qed.

(** ** The configuration is fetched once, and the stored one is read *)

(** [GetHeadState] after a successful header fetch, by the slot computed
    from the stored configuration. *)
Lemma GetHeadState_header_run (c : State.Clients) (m : State.NetworkStateManager)
  (w : list State.Event) (header : State.Header) :
  State.ec_HeaderByNumber c (Scan.headers w) = Go.Ok header ->
  State.GetHeadState c m w
  = match State.headTargetSlot (State.float_neg c) (State.BeaconConfig m)
            (State.Time header) with
    | Some slot =>
        (Some (State.pkg_CreateNetworkState c (Scan.builds w) (State.log m) slot
                 (State.BeaconConfig m)),
         w ++ [State.CallHeaderByNumber;
               State.CallCreateNetworkState slot (State.BeaconConfig m)])
    | None => (None, w ++ [State.CallHeaderByNumber])
    end.
Proof.
  intros Hh.
  destruct (State.headTargetSlot (State.float_neg c) (State.BeaconConfig m)
              (State.Time header)) as [slot |] eqn:Hs.
  - apply (GetHeadState_header_ok c m w header slot Hh Hs).
  - unfold State.GetHeadState, State.HeaderByNumber,
      Eff.bind, Eff.calls, Eff.emit, Eff.ret.
    fold (Scan.headers w). rewrite Hh, Hs. reflexivity.
Qed.

(** The first probe of the scan is at the slot computed from the stored
    configuration. *)
Lemma scan_first_probe (c : State.Clients) (m : State.NetworkStateManager)
  (w : list State.Event) (head : State.BeaconHead) (fuel : nat) :
  State.bc_GetBeaconHead c (Scan.heads w) = Go.Ok head ->
  exists rest,
    snd (State.GetLatestFinalizedBeaconBlock (S fuel) c m w)
    = w ++ State.CallGetBeaconHead
           :: State.CallGetBeaconBlock
                (Go.Sprint (State.finalizedTargetSlot head (State.BeaconConfig m)))
           :: rest.
Proof.
  intros Hhead.
  rewrite (GetLatestFinalizedBeaconBlock_head_ok _ c m w head Hhead).
  set (target := State.finalizedTargetSlot head (State.BeaconConfig m)).
  cbn [State.loop]. unfold Eff.bind.
  destruct (Scan.is_missing
    (State.bc_GetBeaconBlock c (Scan.probes (w ++ [State.CallGetBeaconHead]))
       (Go.Sprint target))) eqn:Hm.
  - rewrite loopBody_missing by exact Hm.
    destruct (loop_trace c m fuel (Go.sub64 target 1)
                ((w ++ [State.CallGetBeaconHead]) ++ Scan.skipEvents m target))
      as (l & Hl & _).
    rewrite Hl. unfold Scan.skipEvents. rewrite <- !app_assoc. cbn [app].
    eexists. reflexivity.
  - rewrite loopBody_answer by exact Hm. cbn [snd].
    rewrite <- app_assoc. cbn [app]. exists []. reflexivity.
Qed.

(** C7.  [NewNetworkStateManager] calls [GetEth2Config] once and nothing
    else; it returns an error exactly when that call does (the same
    error), and otherwise a manager that stores the configuration
    received.  Neither [GetHeadState] nor [GetLatestFinalizedBeaconBlock]
    fetches a configuration, and both behave the same whatever the beacon
    client would answer to such a fetch.  What they compute, they compute
    from the stored configuration: [GetHeadState] divides the time since
    the stored [GenesisTime] by the stored [SecondsPerSlot] and hands
    that slot and the stored configuration to the snapshot builder;
    [GetLatestFinalizedBeaconBlock] starts its scan, and makes its first
    probe, at [FinalizedEpoch * SlotsPerEpoch + (SlotsPerEpoch - 1)] for
    the stored [SlotsPerEpoch]. *)
Theorem config_fetched_once_at_construction
  (c : State.Clients) (cfg : State.RocketPoolConfig)
  (log : option State.ColorLogger) (w : list State.Event) :
  snd (State.NewNetworkStateManager c cfg log w) = w ++ [State.CallGetEth2Config]
  /\ Scan.configFetches (snd (State.NewNetworkStateManager c cfg log w))
     = S (Scan.configFetches w)
  /\ (forall err,
        fst (State.NewNetworkStateManager c cfg log w) = Go.Err err
        <-> State.bc_GetEth2Config c (Scan.configFetches w) = Go.Err err)
  /\ (forall beaconConfig,
        State.bc_GetEth2Config c (Scan.configFetches w) = Go.Ok beaconConfig
        <-> fst (State.NewNetworkStateManager c cfg log w)
            = Go.Ok (State.mkNetworkStateManager log cfg
                       (State.SmartnodeNetwork cfg) (State.SmartnodeChainID cfg)
                       beaconConfig))
  /\ (forall m w',
        Scan.configFetches (snd (State.GetHeadState c m w')) = Scan.configFetches w')
  /\ (forall fuel m w',
        Scan.configFetches (snd (State.GetLatestFinalizedBeaconBlock fuel c m w'))
        = Scan.configFetches w')
  /\ (forall g m w',
        State.GetHeadState (Scan.with_GetEth2Config c g) m w'
        = State.GetHeadState c m w')
  /\ (forall g fuel m w',
        State.GetLatestFinalizedBeaconBlock fuel (Scan.with_GetEth2Config c g) m w'
        = State.GetLatestFinalizedBeaconBlock fuel c m w')
  /\ (forall m w' slot beaconConfig,
        In (State.CallCreateNetworkState slot beaconConfig)
           (snd (State.GetHeadState c m w')) ->
        In (State.CallCreateNetworkState slot beaconConfig) w'
        \/ beaconConfig = State.BeaconConfig m)
  /\ (forall m w' header,
        State.ec_HeaderByNumber c (Scan.headers w') = Go.Ok header ->
        State.GetHeadState c m w'
        = match State.headTargetSlot (State.float_neg c) (State.BeaconConfig m)
                  (State.Time header) with
          | Some slot =>
              (Some (State.pkg_CreateNetworkState c (Scan.builds w') (State.log m)
                       slot (State.BeaconConfig m)),
               w' ++ [State.CallHeaderByNumber;
                      State.CallCreateNetworkState slot (State.BeaconConfig m)])
          | None => (None, w' ++ [State.CallHeaderByNumber])
          end)
  /\ (forall m w' header,
        State.ec_HeaderByNumber c (Scan.headers w') = Go.Ok header ->
        Eth2Config_typed (State.BeaconConfig m) ->
        0 < SecondsPerSlot (State.BeaconConfig m) ->
        Go.is_uint64 (State.Time header) ->
        GenesisTime (State.BeaconConfig m) <= State.Time header ->
        Scan.fitsDuration (GenesisTime (State.BeaconConfig m)) (State.Time header) ->
        snd (State.GetHeadState c m w')
        = w' ++ [State.CallHeaderByNumber;
                 State.CallCreateNetworkState
                   ((State.Time header - GenesisTime (State.BeaconConfig m))
                    / SecondsPerSlot (State.BeaconConfig m))
                   (State.BeaconConfig m)])
  /\ (forall fuel m w' head,
        State.bc_GetBeaconHead c (Scan.heads w') = Go.Ok head ->
        State.GetLatestFinalizedBeaconBlock fuel c m w'
        = State.loop fuel c m
            (Go.wrap64 (State.FinalizedEpoch head * SlotsPerEpoch (State.BeaconConfig m)
                        + (SlotsPerEpoch (State.BeaconConfig m) - 1)))
            (w' ++ [State.CallGetBeaconHead]))
  /\ (forall fuel m w' head,
        State.bc_GetBeaconHead c (Scan.heads w') = Go.Ok head ->
        exists rest,
          snd (State.GetLatestFinalizedBeaconBlock (S fuel) c m w')
          = w' ++ State.CallGetBeaconHead
                  :: State.CallGetBeaconBlock
                       (Go.Sprint
                          (Go.wrap64
                             (State.FinalizedEpoch head
                              * SlotsPerEpoch (State.BeaconConfig m)
                              + (SlotsPerEpoch (State.BeaconConfig m) - 1))))
                  :: rest).
Proof.
  assert (Hrun : State.NewNetworkStateManager c cfg log w
    = (match State.bc_GetEth2Config c (Scan.configFetches w) with
       | Go.Err err => Go.Err err
       | Go.Ok beaconConfig =>
           Go.Ok (State.mkNetworkStateManager log cfg
                    (State.SmartnodeNetwork cfg) (State.SmartnodeChainID cfg)
                    beaconConfig)
       end, w ++ [State.CallGetEth2Config])).
  { unfold State.NewNetworkStateManager, State.GetEth2Config,
      Eff.bind, Eff.calls, Eff.emit, Eff.ret.
    fold (Scan.configFetches w).
    destruct (State.bc_GetEth2Config c (Scan.configFetches w)); reflexivity. }
  rewrite Hrun. cbn [fst snd].
  split; [reflexivity |].
  split; [rewrite configFetches_app;
          change (Scan.configFetches [State.CallGetEth2Config]) with 1%nat; lia |].
  split.
  { intros err.
    destruct (State.bc_GetEth2Config c (Scan.configFetches w));
      split; intros H; congruence. }
  split.
  { intros beaconConfig.
    destruct (State.bc_GetEth2Config c (Scan.configFetches w));
      split; intros H; congruence. }
  split; [intros m w'; apply GetHeadState_configFetches |].
  split; [intros fuel m w'; apply GetLatestFinalizedBeaconBlock_configFetches |].
  split; [intros g m w'; reflexivity |].
  split.
  { intros g fuel m w'.
    unfold State.GetLatestFinalizedBeaconBlock, State.GetBeaconHead.
    unfold Eff.bind at 1 2 3 4 5 6. unfold Eff.calls, Eff.emit, Eff.ret at 1 3.
    change (State.bc_GetBeaconHead (Scan.with_GetEth2Config c g))
      with (State.bc_GetBeaconHead c).
    destruct (State.bc_GetBeaconHead c _) as [head | err]; [| reflexivity].
    apply loop_ignores_GetEth2Config. }
  split.
  { intros m w' slot beaconConfig Hin.
    destruct (State.ec_HeaderByNumber c (Scan.headers w')) as [header | err] eqn:Hh.
    - rewrite (GetHeadState_header_run c m w' header Hh) in Hin.
      destruct (State.headTargetSlot (State.float_neg c) (State.BeaconConfig m)
                  (State.Time header)) as [slot' |];
        cbn [snd] in Hin; apply in_app_or in Hin.
      + destruct Hin as [Hin | [Hin | [Hin | []]]];
          [left; exact Hin | discriminate | right; congruence].
      + destruct Hin as [Hin | [Hin | []]]; [left; exact Hin | discriminate].
    - rewrite (GetHeadState_header_err c m w' err Hh) in Hin. cbn [snd] in Hin.
      apply in_app_or in Hin.
      destruct Hin as [Hin | [Hin | []]]; [left; exact Hin | discriminate]. }
  split; [intros m w' header Hh; apply GetHeadState_header_run, Hh |].
  split.
  { intros m w' header Hh Hty Hsps Ht Hge Hfit.
    rewrite (GetHeadState_header_run c m w' header Hh).
    rewrite (headTargetSlot_from_genesis _ _ _ Hty Hsps Ht Hge Hfit).
    reflexivity. }
  split.
  { intros fuel m w' head Hhead.
    rewrite (GetLatestFinalizedBeaconBlock_head_ok fuel c m w' head Hhead).
    rewrite finalizedTargetSlot_formula. reflexivity. }
  intros fuel m w' head Hhead.
  destruct (scan_first_probe c m w' head fuel Hhead) as (rest & Hrest).
  exists rest. rewrite Hrest, finalizedTargetSlot_formula. reflexivity.
Qed.

(** A manager built in scenario B stores the configuration received
    (one fetch).  When the beacon client later answers with another
    configuration, the manager still computes with the stored one: slot
    50 for a header at 1600, and a scan that starts at slot 127. *)
Lemma config_fetched_once_at_construction_witness :
  snd (State.NewNetworkStateManager Scenarios.clientsB Scenarios.rpConfig
         Scenarios.logger [])
  = [State.CallGetEth2Config]
  /\ fst (State.NewNetworkStateManager Scenarios.clientsB Scenarios.rpConfig
            Scenarios.logger [])
     = Go.Ok Scenarios.manager
  /\ snd (State.GetHeadState Scenarios2.clientsRotated Scenarios.manager [])
     = [State.CallHeaderByNumber;
        State.CallCreateNetworkState 50 Scenarios.config]
  /\ exists rest,
       snd (State.GetLatestFinalizedBeaconBlock 1 Scenarios2.clientsRotated
              Scenarios.manager [])
       = State.CallGetBeaconHead :: State.CallGetBeaconBlock "127" :: rest.
Proof.
  pose proof (config_fetched_once_at_construction Scenarios.clientsB
                Scenarios.rpConfig Scenarios.logger []) as (H1 & _ & _ & H4 & _).
  pose proof (config_fetched_once_at_construction Scenarios2.clientsRotated
                Scenarios.rpConfig Scenarios.logger [])
    as (_ & _ & _ & _ & _ & _ & _ & _ & _ & _ & H11 & _ & H13).
  split; [exact H1 |].
  split; [exact (proj1 (H4 Scenarios.config) eq_refl) |].
  split.
  - apply (H11 Scenarios.manager [] (State.mkHeader 77 1600) eq_refl).
    + unfold Eth2Config_typed, Go.is_uint64, Go.two64; simpl; lia.
    + simpl; lia.
    + unfold Go.is_uint64, Go.two64; simpl; lia.
    + simpl; lia.
    + split; [reflexivity | intros Hc; discriminate Hc].
  - exact (H13 0%nat Scenarios.manager [] (State.mkBeaconHead 5 3 4) eq_refl).
Defined.
